(** * Hyperopt rule generators of [user_data/hyperopts]

    A shallow embedding of [bb_rsi_hyperopt.py] ([BBRSIHyperOpt]) and
    [strategy2_hyperopt.py] ([Strategy002Hyperopt]): the indicator
    annotators, the declared search spaces, the generated buy and sell
    evaluators and the static reference evaluators.

    Modelling choices.
    - A pandas [DataFrame] is a row count (its index) and a finite map from
      column names to columns; a column is the list of its cells in row
      order.  The Python code mutates the frame in place and returns it; the
      embedding passes the frame explicitly.
    - A cell is a float64, kept as its exact rational value or as one of
      NaN, -inf, +inf.  The evaluators only compare cells, and comparison of
      floats is exact.  Arithmetic on cells (used by the Fisher transform in
      the annotator) is a parameter of the indicator library.
    - An assignment ([params : Dict[str, Any]]) is a finite map from keys
      to Python values.
    - Python exceptions are results [Raise e]; sequencing follows Python's
      left-to-right evaluation order. *)

From Stdlib Require Import ZArith QArith Qcanon.
From stdpp Require Import base option list strings gmap fin_maps.

Local Open Scope string_scope.
Local Open Scope list_scope.

(** ** Cells, series and Python values *)

Inductive flt : Type :=
  | FNaN
  | FNegInf
  | FFin (q : Qc)
  | FPosInf.

Global Instance flt_eq_dec : EqDecision flt.
Proof. solve_decision. Defined.

(** [x < y] on float64; every comparison with NaN is false. *)
Definition flt_ltb (x y : flt) : bool :=
  match x, y with
  | FNaN, _ | _, FNaN => false
  | FNegInf, FNegInf => false
  | FNegInf, _ => true
  | _, FNegInf => false
  | FPosInf, _ => false
  | FFin _, FPosInf => true
  | FFin a, FFin b => bool_decide (a < b)%Qc
  end.

Definition flt_gtb (x y : flt) : bool := flt_ltb y x.

(** [x == y] on float64; NaN is equal to nothing. *)
Definition flt_eqb (x y : flt) : bool :=
  match x, y with
  | FNaN, _ | _, FNaN => false
  | _, _ => bool_decide (x = y)
  end.

Definition flt_of_Z (z : Z) : flt := FFin (Q2Qc (inject_Z z)).

Definition flt_one : flt := flt_of_Z 1.

Abbreviation Series := (list flt).
Abbreviation BoolSeries := (list bool).

(** The values an assignment can hold. *)
Inductive pyval : Type :=
  | PNone
  | PBool (b : bool)
  | PInt (z : Z)
  | PFloat (f : flt)
  | PStr (s : string).

Global Instance pyval_eq_dec : EqDecision pyval.
Proof. solve_decision. Defined.

(** Python truthiness, as tested by [if ... and params[k]:]. *)
Definition truthy (v : pyval) : bool :=
  match v with
  | PNone => false
  | PBool b => b
  | PInt z => negb (z =? 0)%Z
  | PFloat f => negb (flt_eqb f (flt_of_Z 0))
  | PStr s => negb (bool_decide (s = ""))
  end.

(** The number a scalar denotes when a float column is compared with it
    ([True] is 1, [False] is 0); strings and [None] denote none. *)
Definition as_num (v : pyval) : option flt :=
  match v with
  | PBool b => Some (flt_of_Z (if b then 1 else 0))
  | PInt z => Some (flt_of_Z z)
  | PFloat f => Some f
  | PNone | PStr _ => None
  end.

(** ** Exceptions *)

Inductive exn : Type :=
  | ParamKeyError (k : string)    (* KeyError raised by [params[k]] *)
  | ColumnKeyError (k : string)   (* KeyError raised by [dataframe[k]] *)
  | TypeError.

Inductive result (A : Type) : Type :=
  | Ok (a : A)
  | Raise (e : exn).
Arguments Ok {A} a.
Arguments Raise {A} e.

Global Instance result_ret : MRet result := fun _ a => Ok a.
Global Instance result_bind : MBind result := fun _ _ f m =>
  match m with
  | Ok a => f a
  | Raise e => Raise e
  end.

(** ** Frames *)

Record DataFrame : Type := mkDF {
  nrows : nat;
  columns : gmap string Series
}.

(** Every column spans the index. *)
Definition wf_df (df : DataFrame) : Prop :=
  ∀ c s, columns df !! c = Some s → length s = nrows df.

(** [dataframe[c]] *)
Definition getitem (df : DataFrame) (c : string) : result Series :=
  match columns df !! c with
  | Some s => Ok s
  | None => Raise (ColumnKeyError c)
  end.

(** Alignment of a positionally indexed series to an index of [n] rows:
    surplus rows are dropped, missing rows are NaN. *)
Definition align (n : nat) (s : Series) : Series :=
  take n s ++ replicate (n - length s) FNaN.

(** [dataframe[c] = s] *)
Definition setitem (df : DataFrame) (c : string) (s : Series) : DataFrame :=
  mkDF (nrows df) (<[c := align (nrows df) s]> (columns df)).

(** [params[k]] and [k in params] *)
Definition param (params : gmap string pyval) (k : string) : result pyval :=
  match params !! k with
  | Some v => Ok v
  | None => Raise (ParamKeyError k)
  end.

Definition contains (params : gmap string pyval) (k : string) : bool :=
  bool_decide (is_Some (params !! k)).

(** [k in params and params[k']]: the lookup happens only when [k] is
    present. *)
Definition present_and (params : gmap string pyval) (k k' : string)
  : result bool :=
  if contains params k then v ← param params k'; Ok (truthy v) else Ok false.

(** Elementwise comparisons of a column with a scalar and with a column. *)
Definition series_lt_val (s : Series) (v : pyval) : result BoolSeries :=
  match as_num v with
  | Some x => Ok (map (λ c, flt_ltb c x) s)
  | None => Raise TypeError
  end.

Definition series_gt_val (s : Series) (v : pyval) : result BoolSeries :=
  match as_num v with
  | Some x => Ok (map (λ c, flt_gtb c x) s)
  | None => Raise TypeError
  end.

(** [==] does not raise on a scalar that is no number: no row is equal. *)
Definition series_eq_val (s : Series) (v : pyval) : BoolSeries :=
  match as_num v with
  | Some x => map (λ c, flt_eqb c x) s
  | None => map (λ _, false) s
  end.

Definition series_lt (s1 s2 : Series) : BoolSeries := zip_with flt_ltb s1 s2.
Definition series_gt (s1 s2 : Series) : BoolSeries := zip_with flt_gtb s1 s2.

(** [x & y] on boolean columns. *)
Definition series_and (x y : BoolSeries) : BoolSeries := zip_with andb x y.

(** [reduce(lambda x, y: x & y, conditions)] on a non-empty list. *)
Definition reduce_and (conditions : list BoolSeries) : BoolSeries :=
  match conditions with
  | [] => []
  | c :: cs => foldl series_and c cs
  end.

(** [dataframe.loc[mask, c] = 1]: rows selected by [mask] receive 1, the
    other rows keep their cell; a column that does not exist yet is created
    with NaN on the rows that are not selected.  The mask is computed from
    columns of the same frame and spans its index; a row the mask does not
    reach counts as not selected. *)
Definition prior_column (df : DataFrame) (c : string) : Series :=
  default (replicate (nrows df) FNaN) (columns df !! c).

Definition mark_rows (mask : BoolSeries) (old : Series) : Series :=
  imap (λ i v, if default false (mask !! i) then flt_one else v) old.

Definition loc_set_one (df : DataFrame) (mask : BoolSeries) (c : string)
  : DataFrame :=
  mkDF (nrows df) (<[c := mark_rows mask (prior_column df c)]> (columns df)).

(** The common tail of the four generated evaluators:
    [if conditions: dataframe.loc[reduce(...), signal] = 1]. *)
Definition mark_signal (df : DataFrame) (conditions : list BoolSeries)
    (signal : string) : DataFrame :=
  match conditions with
  | [] => df
  | _ :: _ => loc_set_one df (reduce_and conditions) signal
  end.

(** The comparison operator a guard applies, fixed where the guard is
    written. *)
Inductive cmp_op : Type := Lt | Gt | Eq.

Definition compare_val (op : cmp_op) (s : Series) (v : pyval)
  : result BoolSeries :=
  match op with
  | Lt => series_lt_val s v
  | Gt => series_gt_val s v
  | Eq => Ok (series_eq_val s v)
  end.

(** One guard statement,
    [if k_in in params and params[k_on]:
         conditions.append(dataframe[col] <op> params[k_value])]. *)
Definition guard (params : gmap string pyval) (k_in k_on : string)
    (col : string) (op : cmp_op) (k_value : string)
    (dataframe : DataFrame) (conditions : list BoolSeries)
  : result (list BoolSeries) :=
  enabled ← present_and params k_in k_on;
  if enabled : bool then
    s ← getitem dataframe col;
    v ← param params k_value;
    c ← compare_val op s v;
    Ok (conditions ++ [c])
  else Ok conditions.

(** One trigger branch,
    [if params[key] == choice:
         conditions.append(dataframe[lhs] < dataframe[rhs])]. *)
Definition branch_lt (params : gmap string pyval) (key choice : string)
    (lhs rhs : string)
    (dataframe : DataFrame) (conditions : list BoolSeries)
  : result (list BoolSeries) :=
  v ← param params key;
  if bool_decide (v = PStr choice) then
    a ← getitem dataframe lhs;
    b ← getitem dataframe rhs;
    Ok (conditions ++ [series_lt a b])
  else Ok conditions.

(** ** Search spaces *)

Inductive Dimension : Type :=
  | Integer (low high : Z) (name : string)
  | Real (low high : Qc) (name : string)
  | Categorical (categories : list pyval) (name : string).

Definition dim_name (d : Dimension) : string :=
  match d with
  | Integer _ _ n | Real _ _ n | Categorical _ n => n
  end.

Definition in_domain (d : Dimension) (v : pyval) : bool :=
  match d, v with
  | Integer lo hi _, PInt z => bool_decide (lo ≤ z ≤ hi)%Z
  | Real lo hi _, PFloat (FFin q) => bool_decide (lo <= q)%Qc && bool_decide (q <= hi)%Qc
  | Categorical cs _, _ => bool_decide (v ∈ cs)
  | _, _ => false
  end.

Definition in_space (space : list Dimension) (k : string) (v : pyval) : bool :=
  existsb (λ d, bool_decide (dim_name d = k) && in_domain d v) space.

(** A Parameter Assignment over [space]: every key names a dimension of
    the space and holds a value of that dimension's domain.  Keys may be
    missing. *)
Definition is_assignment (space : list Dimension) (params : gmap string pyval)
  : Prop :=
  ∀ k v, params !! k = Some v → in_space space k v = true.

(** ** The indicator library

    [talib.abstract], [qtpylib.indicators] and numpy's float64 arithmetic
    are outside the repository.  They enter as fixed pure functions.  A
    talib function applied to a frame reads price columns of the frame
    only. *)

Definition price_columns : list string :=
  ["open"; "high"; "low"; "close"; "volume"].

Definition same_prices (d1 d2 : DataFrame) : Prop :=
  nrows d1 = nrows d2 ∧
  ∀ c, c ∈ price_columns → columns d1 !! c = columns d2 !! c.

Record Bands : Type := mkBands {
  upper : Series;
  mid : Series;
  lower : Series
}.

Record Stoch : Type := mkStoch {
  slowk : Series;
  slowd : Series
}.

Record IndicatorLib : Type := mkLib {
  ta_RSI : DataFrame → result Series;
  ta_STOCH : DataFrame → result Stoch;
  ta_SAR : DataFrame → result Series;
  ta_CDLHAMMER : DataFrame → result Series;
  typical_price : DataFrame → result Series;
  bollinger_bands : Series → nat → Z → Bands;
  np_exp : flt → flt;
  fl_add : flt → flt → flt;
  fl_sub : flt → flt → flt;
  fl_mul : flt → flt → flt;
  fl_div : flt → flt → flt;
  ta_RSI_prices : ∀ d1 d2, same_prices d1 d2 → ta_RSI d1 = ta_RSI d2;
  ta_STOCH_prices : ∀ d1 d2, same_prices d1 d2 → ta_STOCH d1 = ta_STOCH d2;
  ta_SAR_prices : ∀ d1 d2, same_prices d1 d2 → ta_SAR d1 = ta_SAR d2;
  ta_CDLHAMMER_prices :
    ∀ d1 d2, same_prices d1 d2 → ta_CDLHAMMER d1 = ta_CDLHAMMER d2;
  typical_price_prices :
    ∀ d1 d2, same_prices d1 d2 → typical_price d1 = typical_price d2
}.

(** The float64 literals [0.1] and [0.3], by their exact values. *)
Definition float_0_1 : flt := FFin (Q2Qc (3602879701896397 # 36028797018963968)).
Definition float_0_3 : flt := FFin (Q2Qc (5404319552844595 # 18014398509481984)).

(** ** [bb_rsi_hyperopt.py] *)

Module BBRSIHyperOpt.

Definition populate_indicators (L : IndicatorLib) (dataframe : DataFrame)
  : result DataFrame :=
  rsi ← ta_RSI L dataframe;
  let dataframe := setitem dataframe "rsi" rsi in
  sell_rsi ← ta_RSI L dataframe;
  let dataframe := setitem dataframe "sell-rsi" sell_rsi in
  tp ← typical_price L dataframe;
  let bollinger1 := bollinger_bands L tp 20 1 in
  let dataframe := setitem dataframe "bb_lowerband1" (lower bollinger1) in
  let dataframe := setitem dataframe "bb_middleband1" (mid bollinger1) in
  let dataframe := setitem dataframe "bb_upperband1" (upper bollinger1) in
  tp ← typical_price L dataframe;
  let bollinger2 := bollinger_bands L tp 20 2 in
  let dataframe := setitem dataframe "bb_lowerband2" (lower bollinger2) in
  let dataframe := setitem dataframe "bb_middleband2" (mid bollinger2) in
  let dataframe := setitem dataframe "bb_upperband2" (upper bollinger2) in
  tp ← typical_price L dataframe;
  let bollinger3 := bollinger_bands L tp 20 3 in
  let dataframe := setitem dataframe "bb_lowerband3" (lower bollinger3) in
  let dataframe := setitem dataframe "bb_middleband3" (mid bollinger3) in
  let dataframe := setitem dataframe "bb_upperband3" (upper bollinger3) in
  tp ← typical_price L dataframe;
  let bollinger4 := bollinger_bands L tp 20 4 in
  let dataframe := setitem dataframe "bb_lowerband4" (lower bollinger4) in
  let dataframe := setitem dataframe "bb_middleband4" (mid bollinger4) in
  let dataframe := setitem dataframe "bb_upperband4" (upper bollinger4) in
  Ok dataframe.

(** The columns [populate_indicators] assigns. *)
Definition indicator_columns : list string :=
  ["rsi"; "sell-rsi";
   "bb_lowerband1"; "bb_middleband1"; "bb_upperband1";
   "bb_lowerband2"; "bb_middleband2"; "bb_upperband2";
   "bb_lowerband3"; "bb_middleband3"; "bb_upperband3";
   "bb_lowerband4"; "bb_middleband4"; "bb_upperband4"].

(** [# GUARDS AND TRENDS] of the buy closure *)
Definition buy_guards (params : gmap string pyval) (dataframe : DataFrame)
    (conditions : list BoolSeries) : result (list BoolSeries) :=
  guard params "rsi-enabled" "rsi-enabled" "rsi" Lt "rsi-value"
    dataframe conditions.

(** [# TRIGGERS] of the buy closure *)
Definition buy_triggers (params : gmap string pyval) (dataframe : DataFrame)
    (conditions : list BoolSeries) : result (list BoolSeries) :=
  if contains params "trigger" then
    conditions ← branch_lt params "trigger" "bb_lower1"
                   "close" "bb_lowerband1" dataframe conditions;
    conditions ← branch_lt params "trigger" "bb_lower2"
                   "close" "bb_lowerband2" dataframe conditions;
    conditions ← branch_lt params "trigger" "bb_lower3"
                   "close" "bb_lowerband3" dataframe conditions;
    branch_lt params "trigger" "bb_lower4"
      "close" "bb_lowerband4" dataframe conditions
  else Ok conditions.

Definition buy_conditions (params : gmap string pyval)
    (dataframe : DataFrame) : result (list BoolSeries) :=
  conditions ← buy_guards params dataframe [];
  buy_triggers params dataframe conditions.

(** [buy_strategy_generator(params)] is the closure
    [populate_buy_trend]; the closure applied to a frame is
    [buy_strategy_generator params dataframe]. *)
Definition buy_strategy_generator (params : gmap string pyval)
    (dataframe : DataFrame) : result DataFrame :=
  conditions ← buy_conditions params dataframe;
  Ok (mark_signal dataframe conditions "buy").

Definition indicator_space : list Dimension :=
  [ Integer 5 50 "rsi-value";
    Categorical [PBool true; PBool false] "rsi-enabled";
    Categorical [PStr "bb_lower1"; PStr "bb_lower2";
                 PStr "bb_lower3"; PStr "bb_lower4"] "trigger" ].

(** [# GUARDS AND TRENDS] of the sell closure *)
Definition sell_guards (params : gmap string pyval) (dataframe : DataFrame)
    (conditions : list BoolSeries) : result (list BoolSeries) :=
  guard params "sell-rsi-enabled" "sell-rsi-enabled" "rsi" Gt "sell-rsi-value"
    dataframe conditions.

(** [# TRIGGERS] of the sell closure: the block is entered on
    ['sell-trigger' in params] and its branches read [params['trigger']]. *)
Definition sell_triggers (params : gmap string pyval) (dataframe : DataFrame)
    (conditions : list BoolSeries) : result (list BoolSeries) :=
  if contains params "sell-trigger" then
    conditions ← branch_lt params "trigger" "sell_bb_lower1"
                   "close" "bb_lowerband1" dataframe conditions;
    conditions ← branch_lt params "trigger" "sell_bb_middle1"
                   "close" "bb_middleband1" dataframe conditions;
    branch_lt params "trigger" "sell_bb_upper1"
      "close" "bb_upperband1" dataframe conditions
  else Ok conditions.

Definition sell_conditions (params : gmap string pyval)
    (dataframe : DataFrame) : result (list BoolSeries) :=
  conditions ← sell_guards params dataframe [];
  sell_triggers params dataframe conditions.

Definition sell_strategy_generator (params : gmap string pyval)
    (dataframe : DataFrame) : result DataFrame :=
  conditions ← sell_conditions params dataframe;
  Ok (mark_signal dataframe conditions "sell").

Definition sell_indicator_space : list Dimension :=
  [ Integer 30 100 "sell-rsi-value";
    Categorical [PBool true; PBool false] "sell-rsi-enabled";
    Categorical [PStr "sell_bb_lower1"; PStr "sell_bb_middle1";
                 PStr "sell_bb_upper1"] "sell-trigger" ].

(** The instance method [populate_buy_trend]. *)
Definition populate_buy_trend (dataframe : DataFrame) : result DataFrame :=
  rsi ← getitem dataframe "rsi";
  c1 ← series_gt_val rsi (PInt 30);
  close ← getitem dataframe "close";
  bb_lowerband ← getitem dataframe "bb_lowerband";
  let c2 := series_lt close bb_lowerband in
  Ok (loc_set_one dataframe (series_and c1 c2) "buy").

(** The instance method [populate_sell_trend]. *)
Definition populate_sell_trend (dataframe : DataFrame) : result DataFrame :=
  close ← getitem dataframe "close";
  bb_middleband ← getitem dataframe "bb_middleband";
  Ok (loc_set_one dataframe (series_gt close bb_middleband) "sell").

End BBRSIHyperOpt.

(** ** [strategy2_hyperopt.py] *)

Module Strategy002Hyperopt.

(** [(np.exp(2 * rsi) - 1) / (np.exp(2 * rsi) + 1)] with
    [rsi = 0.1 * (dataframe['rsi'] - 50)], row by row. *)
Definition fisher (L : IndicatorLib) (x : flt) : flt :=
  let rsi := fl_mul L float_0_1 (fl_sub L x (flt_of_Z 50)) in
  fl_div L
    (fl_sub L (np_exp L (fl_mul L (flt_of_Z 2) rsi)) (flt_of_Z 1))
    (fl_add L (np_exp L (fl_mul L (flt_of_Z 2) rsi)) (flt_of_Z 1)).

Definition populate_indicators (L : IndicatorLib) (dataframe : DataFrame)
  : result DataFrame :=
  stoch ← ta_STOCH L dataframe;
  let dataframe := setitem dataframe "slowk" (slowk stoch) in
  rsi ← ta_RSI L dataframe;
  let dataframe := setitem dataframe "rsi" rsi in
  rsi ← getitem dataframe "rsi";
  let dataframe := setitem dataframe "fisher_rsi" (map (fisher L) rsi) in
  tp ← typical_price L dataframe;
  let bollinger1 := bollinger_bands L tp 20 1 in
  let dataframe := setitem dataframe "bb_lowerband1" (lower bollinger1) in
  tp ← typical_price L dataframe;
  let bollinger2 := bollinger_bands L tp 20 2 in
  let dataframe := setitem dataframe "bb_lowerband2" (lower bollinger2) in
  tp ← typical_price L dataframe;
  let bollinger3 := bollinger_bands L tp 20 3 in
  let dataframe := setitem dataframe "bb_lowerband3" (lower bollinger3) in
  tp ← typical_price L dataframe;
  let bollinger4 := bollinger_bands L tp 20 4 in
  let dataframe := setitem dataframe "bb_lowerband4" (lower bollinger4) in
  sar ← ta_SAR L dataframe;
  let dataframe := setitem dataframe "sar" sar in
  hammer ← ta_CDLHAMMER L dataframe;
  let dataframe := setitem dataframe "CDLHAMMER" hammer in
  Ok dataframe.

Definition indicator_columns : list string :=
  ["slowk"; "rsi"; "fisher_rsi";
   "bb_lowerband1"; "bb_lowerband2"; "bb_lowerband3"; "bb_lowerband4";
   "sar"; "CDLHAMMER"].

(** [# GUARDS AND TRENDS] of the buy closure.  The third guard is
    entered on ['CDLHAMMER' in params] and reads
    [params['CDLHAMMER-enabled']]. *)
Definition buy_guards (params : gmap string pyval) (dataframe : DataFrame)
    (conditions : list BoolSeries) : result (list BoolSeries) :=
  conditions ← guard params "rsi-enabled" "rsi-enabled" "rsi" Lt "rsi-value"
                 dataframe conditions;
  conditions ← guard params "slowk-enabled" "slowk-enabled"
                 "slowk" Lt "slowk-value" dataframe conditions;
  guard params "CDLHAMMER" "CDLHAMMER-enabled"
    "CDLHAMMER" Eq "CDLHAMMER-value" dataframe conditions.

Definition buy_triggers (params : gmap string pyval) (dataframe : DataFrame)
    (conditions : list BoolSeries) : result (list BoolSeries) :=
  if contains params "trigger" then
    conditions ← branch_lt params "trigger" "bb_lower1"
                   "close" "bb_lowerband1" dataframe conditions;
    conditions ← branch_lt params "trigger" "bb_lower2"
                   "close" "bb_lowerband2" dataframe conditions;
    conditions ← branch_lt params "trigger" "bb_lower3"
                   "close" "bb_lowerband3" dataframe conditions;
    branch_lt params "trigger" "bb_lower4"
      "close" "bb_lowerband4" dataframe conditions
  else Ok conditions.

Definition buy_conditions (params : gmap string pyval)
    (dataframe : DataFrame) : result (list BoolSeries) :=
  conditions ← buy_guards params dataframe [];
  buy_triggers params dataframe conditions.

Definition buy_strategy_generator (params : gmap string pyval)
    (dataframe : DataFrame) : result DataFrame :=
  conditions ← buy_conditions params dataframe;
  Ok (mark_signal dataframe conditions "buy").

Definition indicator_space : list Dimension :=
  [ Integer 20 40 "rsi-value";
    Integer 10 30 "slowk-value";
    Integer 0 100 "CDLHAMMER-value";
    Categorical [PBool true; PBool false] "slowk-enabled";
    Categorical [PBool true; PBool false] "rsi-enabled";
    Categorical [PBool true; PBool false] "CDLHAMMER-enabled";
    Categorical [PStr "bb_lower1"; PStr "bb_lower2";
                 PStr "bb_lower3"; PStr "bb_lower4"] "trigger" ].

(** The guard of ['sell-fisher-rsi-enabled'], which compares the column
    ['rsi']. *)
Definition sell_guard_fisher_rsi (params : gmap string pyval)
    (dataframe : DataFrame) (conditions : list BoolSeries)
  : result (list BoolSeries) :=
  guard params "sell-fisher-rsi-enabled" "sell-fisher-rsi-enabled"
    "rsi" Gt "sell-fisher-rsi-value" dataframe conditions.

Definition sell_guard_sar (params : gmap string pyval)
    (dataframe : DataFrame) (conditions : list BoolSeries)
  : result (list BoolSeries) :=
  guard params "sell-sar-enabled" "sell-sar-enabled"
    "sar" Gt "sell-sar-value" dataframe conditions.

(** The sell closure has guards and no trigger. *)
Definition sell_conditions (params : gmap string pyval)
    (dataframe : DataFrame) : result (list BoolSeries) :=
  conditions ← sell_guard_fisher_rsi params dataframe [];
  sell_guard_sar params dataframe conditions.

Definition sell_strategy_generator (params : gmap string pyval)
    (dataframe : DataFrame) : result DataFrame :=
  conditions ← sell_conditions params dataframe;
  Ok (mark_signal dataframe conditions "sell").

Definition sell_indicator_space : list Dimension :=
  [ Real (Q2Qc (-1)) (Q2Qc 1) "sell-fisher-rsi-value";
    Real (Q2Qc (-1)) (Q2Qc 1) "sell-sar-value";
    Categorical [PBool true; PBool false] "sell-fisher-rsi-enabled";
    Categorical [PBool true; PBool false] "sell-sar-enabled" ].

(** The instance method [populate_buy_trend]. *)
Definition populate_buy_trend (dataframe : DataFrame) : result DataFrame :=
  rsi ← getitem dataframe "rsi";
  c1 ← series_lt_val rsi (PInt 30);
  slowk ← getitem dataframe "slowk";
  c2 ← series_lt_val slowk (PInt 20);
  bb_lowerband ← getitem dataframe "bb_lowerband";
  close ← getitem dataframe "close";
  let c3 := series_gt bb_lowerband close in
  hammer ← getitem dataframe "CDLHAMMER";
  let c4 := series_eq_val hammer (PInt 100) in
  Ok (loc_set_one dataframe
        (series_and (series_and (series_and c1 c2) c3) c4) "buy").

(** The instance method [populate_sell_trend]. *)
Definition populate_sell_trend (dataframe : DataFrame) : result DataFrame :=
  sar ← getitem dataframe "sar";
  close ← getitem dataframe "close";
  let c1 := series_gt sar close in
  fisher_rsi ← getitem dataframe "fisher_rsi";
  c2 ← series_gt_val fisher_rsi (PFloat float_0_3);
  Ok (loc_set_one dataframe (series_and c1 c2) "sell").

End Strategy002Hyperopt.

(** ** The four generated evaluators, by name *)

Inductive evaluator : Type :=
  | BBRSI_buy
  | BBRSI_sell
  | Strategy002_buy
  | Strategy002_sell.

Definition conditions_of (ev : evaluator)
  : gmap string pyval → DataFrame → result (list BoolSeries) :=
  match ev with
  | BBRSI_buy => BBRSIHyperOpt.buy_conditions
  | BBRSI_sell => BBRSIHyperOpt.sell_conditions
  | Strategy002_buy => Strategy002Hyperopt.buy_conditions
  | Strategy002_sell => Strategy002Hyperopt.sell_conditions
  end.

Definition signal_of (ev : evaluator) : string :=
  match ev with
  | BBRSI_buy | Strategy002_buy => "buy"
  | BBRSI_sell | Strategy002_sell => "sell"
  end.

Definition generated (ev : evaluator)
  : gmap string pyval → DataFrame → result DataFrame :=
  match ev with
  | BBRSI_buy => BBRSIHyperOpt.buy_strategy_generator
  | BBRSI_sell => BBRSIHyperOpt.sell_strategy_generator
  | Strategy002_buy => Strategy002Hyperopt.buy_strategy_generator
  | Strategy002_sell => Strategy002Hyperopt.sell_strategy_generator
  end.

(** The search spaces of the strategy an evaluator belongs to, buy side and
    sell side together. *)
Definition space_of (ev : evaluator) : list Dimension :=
  match ev with
  | BBRSI_buy | BBRSI_sell =>
      BBRSIHyperOpt.indicator_space ++ BBRSIHyperOpt.sell_indicator_space
  | Strategy002_buy | Strategy002_sell =>
      Strategy002Hyperopt.indicator_space
        ++ Strategy002Hyperopt.sell_indicator_space
  end.

(** ** A concrete indicator library and concrete tables

    Stand-ins with the reading behaviour of the real functions: each
    raises on a missing price column and reads nothing else. *)

Definition flt_shift (k : Z) (x : flt) : flt :=
  match x with
  | FFin q => FFin (q + Q2Qc (inject_Z k))
  | _ => x
  end.

Definition flt_arith (f : Qc → Qc → Qc) (x y : flt) : flt :=
  match x, y with
  | FFin a, FFin b => FFin (f a b)
  | _, _ => FNaN
  end.

Definition sample_RSI (d : DataFrame) : result Series := getitem d "close".

Definition sample_STOCH (d : DataFrame) : result Stoch :=
  h ← getitem d "high";
  l ← getitem d "low";
  c ← getitem d "close";
  Ok (mkStoch c l).

Definition sample_SAR (d : DataFrame) : result Series :=
  h ← getitem d "high";
  l ← getitem d "low";
  Ok h.

Definition sample_CDLHAMMER (d : DataFrame) : result Series :=
  o ← getitem d "open";
  h ← getitem d "high";
  l ← getitem d "low";
  c ← getitem d "close";
  Ok (map (λ _, flt_of_Z 100) c).

Definition sample_typical_price (d : DataFrame) : result Series :=
  h ← getitem d "high";
  l ← getitem d "low";
  c ← getitem d "close";
  Ok h.

Definition sample_bollinger_bands (s : Series) (window : nat) (stds : Z)
  : Bands :=
  mkBands (map (flt_shift stds) s) s (map (flt_shift (- stds)) s).

Local Ltac price_reader :=
  let d1 := fresh "d1" in
  let d2 := fresh "d2" in
  let H := fresh "H" in
  intros d1 d2 [_ H]; unfold getitem;
  rewrite !(H _) by (unfold price_columns; set_solver);
  reflexivity.

Definition sample_lib : IndicatorLib.
Proof.
  refine (mkLib sample_RSI sample_STOCH sample_SAR sample_CDLHAMMER
            sample_typical_price sample_bollinger_bands
            (λ x, x) (flt_arith Qcplus) (flt_arith Qcminus)
            (flt_arith Qcmult) (flt_arith Qcdiv) _ _ _ _ _);
    unfold sample_RSI, sample_STOCH, sample_SAR, sample_CDLHAMMER,
           sample_typical_price;
    price_reader.
Defined.

Definition zs (l : list Z) : Series := map flt_of_Z l.

(** A price table of three rows. *)
Definition prices3 : DataFrame :=
  mkDF 3 (list_to_map
    [("open", zs [9; 6; 11]%Z); ("high", zs [11; 7; 13]%Z);
     ("low", zs [8; 4; 10]%Z); ("close", zs [10; 5; 12]%Z);
     ("volume", zs [100; 200; 300]%Z)]).

(** The two annotators applied to [prices3]. *)
Definition bbrsi_annotated3 : DataFrame :=
  match BBRSIHyperOpt.populate_indicators sample_lib prices3 with
  | Ok d => d
  | Raise _ => prices3
  end.

Definition s002_annotated3 : DataFrame :=
  match Strategy002Hyperopt.populate_indicators sample_lib prices3 with
  | Ok d => d
  | Raise _ => prices3
  end.

(** ** Vocabulary of the properties and concrete inputs *)

(** A key is "off" when it is absent or maps to a false value. *)
Definition key_off (params : gmap string pyval) (k : string) : Prop :=
  params !! k = None ∨ ∃ v, params !! k = Some v ∧ truthy v = false.

(** A key is "on" when it is present and maps to a true value. *)
Definition key_on (params : gmap string pyval) (k : string) : Prop :=
  ∃ v, params !! k = Some v ∧ truthy v = true.

Definition enabled (params : gmap string pyval) (k : string) : bool :=
  from_option truthy false (params !! k).

Definition agree_off_signals (d1 d2 : DataFrame) : Prop :=
  ∀ c, c ≠ "buy" → c ≠ "sell" → columns d1 !! c = columns d2 !! c.

(** Each guard's enable key with its value key. *)
Definition guard_keys (ev : evaluator) : list (string * string) :=
  match ev with
  | BBRSI_buy => [("rsi-enabled", "rsi-value")]
  | BBRSI_sell => [("sell-rsi-enabled", "sell-rsi-value")]
  | Strategy002_buy =>
      [("rsi-enabled", "rsi-value"); ("slowk-enabled", "slowk-value");
       ("CDLHAMMER-enabled", "CDLHAMMER-value")]
  | Strategy002_sell =>
      [("sell-fisher-rsi-enabled", "sell-fisher-rsi-value");
       ("sell-sar-enabled", "sell-sar-value")]
  end.

(** The key whose presence opens the trigger block. *)
Definition trigger_keys (ev : evaluator) : list string :=
  match ev with
  | BBRSI_buy | Strategy002_buy => ["trigger"]
  | BBRSI_sell => ["sell-trigger"]
  | Strategy002_sell => []
  end.

Definition guards_off (ev : evaluator) (params : gmap string pyval) : Prop :=
  Forall (λ g, key_off params g.1) (guard_keys ev).

Definition no_trigger (ev : evaluator) (params : gmap string pyval) : Prop :=
  Forall (λ k, params !! k = None) (trigger_keys ev).

(** Assignments used as concrete inputs. *)
Definition params_all_off : gmap string pyval :=
  <["rsi-enabled" := PBool false]>
    (<["slowk-value" := PInt 15]>
       (<["CDLHAMMER-enabled" := PBool false]> ∅)).

Definition params_rsi_trigger : gmap string pyval :=
  <["rsi-enabled" := PBool true]>
    (<["rsi-value" := PInt 11]>
       (<["trigger" := PStr "bb_lower1"]> ∅)).

(** Row [i] satisfies every condition of the list. *)
Definition holds_at (conditions : list BoolSeries) (i : nat) : bool :=
  forallb (λ c, default false (c !! i)) conditions.

Inductive strategy : Type := BBRSI | Strategy002.

Definition annotate (s : strategy)
  : IndicatorLib → DataFrame → result DataFrame :=
  match s with
  | BBRSI => BBRSIHyperOpt.populate_indicators
  | Strategy002 => Strategy002Hyperopt.populate_indicators
  end.

Definition indicator_columns_of (s : strategy) : list string :=
  match s with
  | BBRSI => BBRSIHyperOpt.indicator_columns
  | Strategy002 => Strategy002Hyperopt.indicator_columns
  end.

(** A price table as the host hands it to the annotator: no column of it
    carries the name of an indicator yet. *)
Definition price_table (s : strategy) (df : DataFrame) : Prop :=
  Forall (λ c, columns df !! c = None) (indicator_columns_of s).

(** The calls the annotator makes into the indicator library return on
    the table (they raise when a price column they read is missing). *)
Definition library_returns (s : strategy) (L : IndicatorLib) (df : DataFrame)
  : Prop :=
  match s with
  | BBRSI =>
      (∃ r, ta_RSI L df = Ok r) ∧ (∃ t, typical_price L df = Ok t)
  | Strategy002 =>
      (∃ k, ta_STOCH L df = Ok k) ∧ (∃ r, ta_RSI L df = Ok r) ∧
      (∃ t, typical_price L df = Ok t) ∧ (∃ a, ta_SAR L df = Ok a) ∧
      (∃ h, ta_CDLHAMMER L df = Ok h)
  end.

(** [adds X d d']: [d'] is [d] with the columns named in [X] assigned,
    each spanning the index, and with nothing else touched. *)
Definition adds (X : gset string) (d d' : DataFrame) : Prop :=
  nrows d' = nrows d ∧
  (∀ c, c ∉ X → columns d' !! c = columns d !! c) ∧
  (∀ c, c ∈ X → ∃ col, columns d' !! c = Some col ∧ length col = nrows d).

(** A table whose ['rsi'] lies on the 0..100 scale and whose
    ['fisher_rsi'] is below the threshold on every row. *)
Definition rsi_scale3 : DataFrame :=
  mkDF 3 (list_to_map
    [("rsi", zs [55; 70; 31]%Z);
     ("fisher_rsi", [FFin (Q2Qc (-1 # 2)); FFin (Q2Qc (-1 # 2));
                     FFin (Q2Qc (-1 # 2))]);
     ("sar", zs [0; 0; 0]%Z)]).

Definition params_fisher : gmap string pyval :=
  <["sell-fisher-rsi-enabled" := PBool true]>
    (<["sell-fisher-rsi-value" := PFloat (FFin (Q2Qc (1 # 2)))]> ∅).

Definition params_hammer : gmap string pyval :=
  <["CDLHAMMER-enabled" := PBool true]>
    (<["CDLHAMMER-value" := PInt 100]> ∅).

(** The band column a ['trigger'] value of the buy side selects. *)
Definition band_of (choice : string) : string :=
  if bool_decide (choice = "bb_lower1") then "bb_lowerband1"
  else if bool_decide (choice = "bb_lower2") then "bb_lowerband2"
  else if bool_decide (choice = "bb_lower3") then "bb_lowerband3"
  else "bb_lowerband4".

Definition params_sell_trigger : gmap string pyval :=
  <["sell-trigger" := PStr "sell_bb_lower1"]> ∅.

Definition params_both_triggers : gmap string pyval :=
  <["trigger" := PStr "bb_lower1"]>
    (<["sell-trigger" := PStr "sell_bb_lower1"]> ∅).

(** The result is not a [KeyError] of an assignment lookup. *)
Definition no_param_error {A} (r : result A) : Prop :=
  ∀ k, r ≠ Raise (ParamKeyError k).

(** Every guard that is switched on finds its value key. *)
Definition values_present (ev : evaluator) (params : gmap string pyval)
  : Prop :=
  Forall (λ g, key_on params g.1 → is_Some (params !! g.2)) (guard_keys ev).

(** The key that opens a block whose body reads another key is absent. *)
Definition mismatched_key_absent (ev : evaluator)
    (params : gmap string pyval) : Prop :=
  match ev with
  | BBRSI_sell => params !! "sell-trigger" = None
  | Strategy002_buy => params !! "CDLHAMMER" = None
  | BBRSI_buy | Strategy002_sell => True
  end.

Definition params_rsi_enabled_only : gmap string pyval :=
  <["rsi-enabled" := PBool true]> ∅.

(** A dictionary with a guard of the sell side switched on, a key of the
    buy side and a key no space declares. *)
Definition params_unknown_keys : gmap string pyval :=
  <["sell-fisher-rsi-enabled" := PBool true]>
    (<["sell-fisher-rsi-value" := PFloat (FFin (Q2Qc (1 # 2)))]>
       (<["trigger" := PStr "bb_lower1"]>
          (<["no-such-dimension" := PStr "x"]> ∅))).

(** ** Vocabulary of the further properties *)

(** The assignment keys an evaluator looks at, by [in] or by subscript. *)
Definition keys_read (ev : evaluator) : list string :=
  match ev with
  | BBRSI_buy => ["rsi-enabled"; "rsi-value"; "trigger"]
  | BBRSI_sell =>
      ["sell-rsi-enabled"; "sell-rsi-value"; "sell-trigger"; "trigger"]
  | Strategy002_buy =>
      ["rsi-enabled"; "rsi-value"; "slowk-enabled"; "slowk-value";
       "CDLHAMMER"; "CDLHAMMER-enabled"; "CDLHAMMER-value"; "trigger"]
  | Strategy002_sell =>
      ["sell-fisher-rsi-enabled"; "sell-fisher-rsi-value";
       "sell-sar-enabled"; "sell-sar-value"]
  end.

(** The table columns an evaluator can subscript. *)
Definition columns_read (ev : evaluator) : list string :=
  match ev with
  | BBRSI_buy =>
      ["rsi"; "close"; "bb_lowerband1"; "bb_lowerband2"; "bb_lowerband3";
       "bb_lowerband4"]
  | BBRSI_sell =>
      ["rsi"; "close"; "bb_lowerband1"; "bb_middleband1"; "bb_upperband1"]
  | Strategy002_buy =>
      ["rsi"; "slowk"; "CDLHAMMER"; "close"; "bb_lowerband1";
       "bb_lowerband2"; "bb_lowerband3"; "bb_lowerband4"]
  | Strategy002_sell => ["rsi"; "sar"]
  end.

Definition has_columns (ev : evaluator) (df : DataFrame) : Prop :=
  Forall (λ c, is_Some (columns df !! c)) (columns_read ev).

Definition strategy_of (ev : evaluator) : strategy :=
  match ev with
  | BBRSI_buy | BBRSI_sell => BBRSI
  | Strategy002_buy | Strategy002_sell => Strategy002
  end.

(** Two assignments that agree on the keys an evaluator looks at. *)
Definition agree_on_keys (ev : evaluator) (p1 p2 : gmap string pyval) : Prop :=
  Forall (λ k, p1 !! k = p2 !! k) (keys_read ev).

(** An assignment that holds every dimension of the space. *)
Definition full_assignment (space : list Dimension)
    (params : gmap string pyval) : Prop :=
  is_assignment space params ∧
  Forall (λ d, is_Some (params !! dim_name d)) space.

(** The result is not a [KeyError] of a column lookup. *)
Definition no_column_error {A} (r : result A) : Prop :=
  ∀ c, r ≠ Raise (ColumnKeyError c).

(** An assignment over both sides of [BBRSIHyperOpt] with a guard on
    each side switched on. *)
Definition params_buy_and_sell : gmap string pyval :=
  <["rsi-enabled" := PBool true]>
    (<["rsi-value" := PInt 11]>
       (<["trigger" := PStr "bb_lower1"]>
          (<["sell-rsi-enabled" := PBool true]>
             (<["sell-rsi-value" := PInt 30]>
                (<["sell-trigger" := PStr "sell_bb_upper1"]> ∅))))).

(** A ['trigger'] value outside the declared domain. *)
Definition params_bad_trigger : gmap string pyval :=
  <["trigger" := PStr "bb_lower5"]> ∅.

(** [params_rsi_trigger] with a key of the sell side and a key no space
    declares added. *)
Definition params_rsi_trigger_more : gmap string pyval :=
  <["sell-rsi-enabled" := PBool true]>
    (<["no-such-dimension" := PStr "x"]> params_rsi_trigger).

(** ** The four static reference evaluators, by name *)

Inductive reference : Type :=
  | BBRSI_ref_buy
  | BBRSI_ref_sell
  | Strategy002_ref_buy
  | Strategy002_ref_sell.

Definition reference_rule (r : reference) : DataFrame → result DataFrame :=
  match r with
  | BBRSI_ref_buy => BBRSIHyperOpt.populate_buy_trend
  | BBRSI_ref_sell => BBRSIHyperOpt.populate_sell_trend
  | Strategy002_ref_buy => Strategy002Hyperopt.populate_buy_trend
  | Strategy002_ref_sell => Strategy002Hyperopt.populate_sell_trend
  end.

Definition reference_signal (r : reference) : string :=
  match r with
  | BBRSI_ref_buy | Strategy002_ref_buy => "buy"
  | BBRSI_ref_sell | Strategy002_ref_sell => "sell"
  end.

(** The columns a reference evaluator subscripts. *)
Definition reference_columns (r : reference) : list string :=
  match r with
  | BBRSI_ref_buy => ["rsi"; "close"; "bb_lowerband"]
  | BBRSI_ref_sell => ["close"; "bb_middleband"]
  | Strategy002_ref_buy => ["rsi"; "slowk"; "bb_lowerband"; "close"; "CDLHAMMER"]
  | Strategy002_ref_sell => ["sar"; "close"; "fisher_rsi"]
  end.

(** The cell of column [c] in row [i]; NaN where there is none. *)
Definition cell (df : DataFrame) (c : string) (i : nat) : flt :=
  default FNaN (columns df !! c ≫= λ s, s !! i).

(** The fixed conjunction of a reference evaluator, on one row. *)
Definition reference_row (r : reference) (df : DataFrame) (i : nat) : bool :=
  match r with
  | BBRSI_ref_buy =>
      flt_gtb (cell df "rsi" i) (flt_of_Z 30)
      && flt_ltb (cell df "close" i) (cell df "bb_lowerband" i)
  | BBRSI_ref_sell =>
      flt_gtb (cell df "close" i) (cell df "bb_middleband" i)
  | Strategy002_ref_buy =>
      flt_ltb (cell df "rsi" i) (flt_of_Z 30)
      && flt_ltb (cell df "slowk" i) (flt_of_Z 20)
      && flt_gtb (cell df "bb_lowerband" i) (cell df "close" i)
      && flt_eqb (cell df "CDLHAMMER" i) (flt_of_Z 100)
  | Strategy002_ref_sell =>
      flt_gtb (cell df "sar" i) (cell df "close" i)
      && flt_gtb (cell df "fisher_rsi" i) float_0_3
  end.

(** A table of the host strategy that carries the plain band columns. *)
Definition banded3 : DataFrame :=
  mkDF 3 (list_to_map
    [("close", zs [10; 5; 12]%Z); ("rsi", zs [25; 35; 50]%Z);
     ("bb_lowerband", zs [8; 8; 13]%Z); ("bb_middleband", zs [9; 9; 9]%Z)]).

(** * Properties *)

(** ** The result monad *)

Lemma bind_Ok {A B} (m : result A) (f : A → result B) (b : B) :
  (m ≫= f) = Ok b ↔ ∃ a, m = Ok a ∧ f a = Ok b.
Proof.
  destruct m as [a|e]; simpl; split.
  - intros H. by exists a.
  - by intros (a' & [= ->] & H).
  - discriminate.
  - by intros (a' & [=] & _).
Qed.

Lemma bind_Raise {A B} (m : result A) (f : A → result B) (e : exn) :
  (m ≫= f) = Raise e ↔ m = Raise e ∨ ∃ a, m = Ok a ∧ f a = Raise e.
Proof.
  destruct m as [a|e']; simpl; split.
  - intros H. right. by exists a.
  - intros [[=]|(a' & [= ->] & H)]. done.
  - intros [= ->]. by left.
  - intros [[= ->]|(a' & [=] & _)]. done.
Qed.

(** ** Lookups in the assignment *)

Lemma contains_true params k : contains params k = true ↔ is_Some (params !! k).
Proof. unfold contains. by rewrite bool_decide_eq_true. Qed.

Lemma contains_false params k : contains params k = false ↔ params !! k = None.
Proof.
  unfold contains. rewrite bool_decide_eq_false. by rewrite eq_None_not_Some.
Qed.

Lemma enabled_true params k : enabled params k = true ↔ key_on params k.
Proof.
  unfold enabled, key_on. destruct (params !! k) as [v|]; simpl.
  - split; [by exists v | by intros (? & [= <-] & ?)].
  - split; [done | by intros (? & [=] & _)].
Qed.

Lemma enabled_false params k : enabled params k = false ↔ key_off params k.
Proof.
  unfold enabled, key_off. destruct (params !! k) as [v|]; simpl.
  - split; [right; by exists v | by intros [[=]|(? & [= <-] & ?)]].
  - split; [by left | done].
Qed.

Lemma present_and_same params k :
  present_and params k k = Ok (enabled params k).
Proof.
  unfold present_and, contains, param, enabled.
  by destruct (params !! k).
Qed.

(** A guard whose presence test and truth test use one key [k]: it
    appends its comparison when [k] is on and does nothing otherwise. *)
Lemma guard_same_key params k col op kv df cs :
  guard params k k col op kv df cs =
    if enabled params k then
      s ← getitem df col; v ← param params kv; c ← compare_val op s v;
      Ok (cs ++ [c])
    else Ok cs.
Proof. unfold guard. by rewrite present_and_same. Qed.

Lemma guard_off params k col op kv df cs :
  key_off params k → guard params k k col op kv df cs = Ok cs.
Proof.
  intros H. apply enabled_false in H. by rewrite guard_same_key, H.
Qed.

Lemma guard_on params k col op kv df cs s v c :
  key_on params k → columns df !! col = Some s → params !! kv = Some v →
  compare_val op s v = Ok c →
  guard params k k col op kv df cs = Ok (cs ++ [c]).
Proof.
  intros H Hs Hv Hc. apply enabled_true in H. rewrite guard_same_key, H.
  unfold getitem, param. rewrite Hs, Hv. simpl. by rewrite Hc.
Qed.

(** A guard entered on the presence of a key that is absent does
    nothing, whatever the other keys hold. *)
Lemma guard_absent params k_in k_on col op kv df cs :
  params !! k_in = None → guard params k_in k_on col op kv df cs = Ok cs.
Proof.
  intros H. unfold guard, present_and.
  apply contains_false in H. by rewrite H.
Qed.

(** ** The conditions do not read the signal columns *)

Lemma getitem_agree d1 d2 c :
  agree_off_signals d1 d2 → c ≠ "buy" → c ≠ "sell" →
  getitem d1 c = getitem d2 c.
Proof. intros H ? ?. unfold getitem. by rewrite H. Qed.

Lemma guard_agree params k_in k_on col op kv d1 d2 cs :
  agree_off_signals d1 d2 → col ≠ "buy" → col ≠ "sell" →
  guard params k_in k_on col op kv d1 cs
  = guard params k_in k_on col op kv d2 cs.
Proof.
  intros H ? ?. unfold guard. by rewrite (getitem_agree d1 d2 col).
Qed.

Lemma branch_lt_agree params key choice lhs rhs d1 d2 cs :
  agree_off_signals d1 d2 →
  lhs ≠ "buy" → lhs ≠ "sell" → rhs ≠ "buy" → rhs ≠ "sell" →
  branch_lt params key choice lhs rhs d1 cs
  = branch_lt params key choice lhs rhs d2 cs.
Proof.
  intros H ? ? ? ?. unfold branch_lt.
  by rewrite (getitem_agree d1 d2 lhs), (getitem_agree d1 d2 rhs).
Qed.

Local Ltac agree_step H d2 :=
  first
    [ rewrite (guard_agree _ _ _ _ _ _ _ d2 _ H) by done
    | rewrite (branch_lt_agree _ _ _ _ _ _ d2 _ H) by done ];
  match goal with
  | |- context [guard ?p ?a ?b ?c ?o ?k d2 ?cs] =>
      destruct (guard p a b c o k d2 cs); simpl; try reflexivity
  | |- context [branch_lt ?p ?a ?b ?l ?r d2 ?cs] =>
      destruct (branch_lt p a b l r d2 cs); simpl; try reflexivity
  end.

Lemma conditions_of_agree ev params d1 d2 :
  agree_off_signals d1 d2 →
  conditions_of ev params d1 = conditions_of ev params d2.
Proof.
  intros H. destruct ev; simpl.
  - unfold BBRSIHyperOpt.buy_conditions, BBRSIHyperOpt.buy_guards,
      BBRSIHyperOpt.buy_triggers.
    agree_step H d2. destruct (contains _ _); [|done].
    by repeat agree_step H d2.
  - unfold BBRSIHyperOpt.sell_conditions, BBRSIHyperOpt.sell_guards,
      BBRSIHyperOpt.sell_triggers.
    agree_step H d2. destruct (contains _ _); [|done].
    by repeat agree_step H d2.
  - unfold Strategy002Hyperopt.buy_conditions, Strategy002Hyperopt.buy_guards,
      Strategy002Hyperopt.buy_triggers.
    simpl. do 3 agree_step H d2.
    destruct (contains _ _); [|done]. by repeat agree_step H d2.
  - unfold Strategy002Hyperopt.sell_conditions,
      Strategy002Hyperopt.sell_guard_fisher_rsi,
      Strategy002Hyperopt.sell_guard_sar.
    by repeat agree_step H d2.
Qed.

Lemma generated_unfold ev params df :
  generated ev params df =
    (conditions_of ev params df
       ≫= λ conditions, Ok (mark_signal df conditions (signal_of ev))).
Proof. by destruct ev. Qed.

(** ** Marking *)

Lemma mark_rows_lookup mask old i :
  mark_rows mask old !! i =
    (λ v, if default false (mask !! i) then flt_one else v) <$> old !! i.
Proof. unfold mark_rows. by rewrite list_lookup_imap. Qed.

Lemma mark_rows_length mask old : length (mark_rows mask old) = length old.
Proof. unfold mark_rows. by rewrite length_imap. Qed.

Lemma mark_rows_idemp mask old :
  mark_rows mask (mark_rows mask old) = mark_rows mask old.
Proof.
  apply list_eq. intros i. rewrite !mark_rows_lookup.
  destruct (old !! i); simpl; [|done]. by destruct (default false _).
Qed.

Lemma loc_set_one_idemp df mask c :
  loc_set_one (loc_set_one df mask c) mask c = loc_set_one df mask c.
Proof.
  unfold loc_set_one, prior_column. simpl.
  rewrite lookup_insert_eq. simpl.
  by rewrite mark_rows_idemp, insert_insert_eq.
Qed.

Lemma mark_signal_idemp df cs c :
  mark_signal (mark_signal df cs c) cs c = mark_signal df cs c.
Proof. destruct cs; simpl; [done|]. apply loc_set_one_idemp. Qed.

Lemma mark_signal_agree df cs c :
  c = "buy" ∨ c = "sell" → agree_off_signals (mark_signal df cs c) df.
Proof.
  intros Hc c' ? ?. destruct cs; simpl; [done|].
  rewrite lookup_insert_ne; [done|]. by destruct Hc; subst.
Qed.

Lemma signal_of_cases ev : signal_of ev = "buy" ∨ signal_of ev = "sell".
Proof. destruct ev; auto. Qed.

(** ** Disabled assignments and repeated passes *)

Lemma is_assignment_undeclared space params k :
  is_assignment space params →
  (∀ v, in_space space k v = false) →
  params !! k = None.
Proof.
  intros H Hk. destruct (params !! k) as [v|] eqn:E; [|done].
  apply H in E. by rewrite Hk in E.
Qed.

(** No dimension of [Strategy002Hyperopt] is named ['CDLHAMMER']. *)
Lemma strategy002_no_CDLHAMMER_key params :
  is_assignment (space_of Strategy002_buy) params →
  params !! "CDLHAMMER" = None.
Proof.
  intros H. eapply is_assignment_undeclared; [done|]. intros v. reflexivity.
Qed.

Lemma conditions_of_disabled ev params df :
  guards_off ev params → no_trigger ev params →
  (ev = Strategy002_buy → params !! "CDLHAMMER" = None) →
  conditions_of ev params df = Ok [].
Proof.
  intros Hg Ht Hc.
  assert (∀ k kv, (k, kv) ∈ guard_keys ev → key_off params k) as Hg'.
  { intros k kv Hk. by apply (proj1 (Forall_forall _ _) Hg (k, kv)). }
  assert (∀ k, k ∈ trigger_keys ev → contains params k = false) as Ht'.
  { intros k Hk. apply contains_false.
    by apply (proj1 (Forall_forall _ _) Ht k). }
  destruct ev; simpl in *.
  - unfold BBRSIHyperOpt.buy_conditions, BBRSIHyperOpt.buy_guards,
      BBRSIHyperOpt.buy_triggers.
    rewrite guard_off by (eapply Hg'; repeat constructor). simpl.
    by rewrite Ht' by set_solver.
  - unfold BBRSIHyperOpt.sell_conditions, BBRSIHyperOpt.sell_guards,
      BBRSIHyperOpt.sell_triggers.
    rewrite guard_off by (eapply Hg'; repeat constructor). simpl.
    by rewrite Ht' by set_solver.
  - unfold Strategy002Hyperopt.buy_conditions, Strategy002Hyperopt.buy_guards,
      Strategy002Hyperopt.buy_triggers.
    rewrite guard_off by (eapply Hg'; repeat constructor). simpl.
    rewrite guard_off by (eapply Hg'; repeat constructor). simpl.
    rewrite guard_absent by auto. simpl.
    by rewrite Ht' by set_solver.
  - unfold Strategy002Hyperopt.sell_conditions,
      Strategy002Hyperopt.sell_guard_fisher_rsi,
      Strategy002Hyperopt.sell_guard_sar.
    rewrite guard_off by (eapply Hg'; repeat constructor). simpl.
    by rewrite guard_off by (eapply Hg'; repeat constructor).
Qed.

(** C6.  Under an assignment in which every guard's enable key is absent
    or false and no trigger key is present, each generated evaluator
    returns the table it was given: no row is marked and nothing is
    raised.  In particular the signal column is as it was. *)
Theorem disabled_assignment_marks_nothing ev params df :
  is_assignment (space_of ev) params →
  guards_off ev params →
  no_trigger ev params →
  generated ev params df = Ok df.
Proof.
  intros Ha Hg Ht. rewrite generated_unfold.
  rewrite conditions_of_disabled; [done..|].
  intros ->. by apply strategy002_no_CDLHAMMER_key.
Qed.

(** For three of the four evaluators the same holds for any dictionary,
    whatever other keys it carries. *)
Lemma disabled_dict_marks_nothing ev params df :
  ev ≠ Strategy002_buy →
  guards_off ev params →
  no_trigger ev params →
  generated ev params df = Ok df.
Proof.
  intros Hev Hg Ht. rewrite generated_unfold.
  by rewrite conditions_of_disabled.
Qed.

Local Ltac solve_lookups H :=
  repeat (apply lookup_insert_Some in H as [[<- <-]|[_ H]]; [reflexivity|]);
  by rewrite lookup_empty in H.

Lemma disabled_assignment_marks_nothing_witness :
  is_assignment (space_of Strategy002_buy) params_all_off ∧
  guards_off Strategy002_buy params_all_off ∧
  no_trigger Strategy002_buy params_all_off ∧
  generated Strategy002_buy params_all_off s002_annotated3
  = Ok s002_annotated3.
Proof.
  assert (is_assignment (space_of Strategy002_buy) params_all_off) as Ha.
  { intros k v H. unfold params_all_off in H. solve_lookups H. }
  assert (guards_off Strategy002_buy params_all_off) as Hg.
  { unfold guards_off. simpl.
    repeat apply Forall_cons_2; try apply Forall_nil_2; simpl.
    - right. by exists (PBool false).
    - by left.
    - right. by exists (PBool false). }
  assert (no_trigger Strategy002_buy params_all_off) as Ht.
  { unfold no_trigger. simpl. by apply Forall_cons_2; [|apply Forall_nil_2]. }
  split; [exact Ha|]. split; [exact Hg|]. split; [exact Ht|].
  exact (disabled_assignment_marks_nothing Strategy002_buy params_all_off
           s002_annotated3 Ha Hg Ht).
Defined.

(** C7.  Applying a generated evaluator to its own output changes
    nothing: the second pass returns the table of the first pass, so the
    signal column after two passes is the signal column after one. *)
Theorem generated_idempotent ev params df df1 :
  generated ev params df = Ok df1 →
  ∃ df2, generated ev params df1 = Ok df2 ∧
         columns df2 !! signal_of ev = columns df1 !! signal_of ev ∧
         df2 = df1.
Proof.
  rewrite generated_unfold. intros (cs & Hcs & [= <-])%bind_Ok.
  eexists. split; [|split; reflexivity].
  rewrite generated_unfold.
  rewrite (conditions_of_agree ev params _ df)
    by (apply mark_signal_agree, signal_of_cases).
  rewrite Hcs. simpl. by rewrite mark_signal_idemp.
Qed.

Lemma generated_idempotent_witness :
  ∃ df1 df2,
    generated BBRSI_buy params_rsi_trigger bbrsi_annotated3 = Ok df1 ∧
    generated BBRSI_buy params_rsi_trigger df1 = Ok df2 ∧
    columns df2 !! "buy" = columns df1 !! "buy" ∧ df2 = df1.
Proof.
  destruct (generated BBRSI_buy params_rsi_trigger bbrsi_annotated3)
    as [df1|e] eqn:E; [|by vm_compute in E].
  destruct (generated_idempotent BBRSI_buy params_rsi_trigger
              bbrsi_annotated3 df1 E) as (df2 & H2 & Hs & Heq).
  by exists df1, df2.
Defined.

(** ** What marking writes *)

Lemma series_and_lookup x y i :
  default false (series_and x y !! i)
  = default false (x !! i) && default false (y !! i).
Proof.
  unfold series_and. rewrite lookup_zip_with.
  destruct (x !! i) as [a|]; simpl; [|done].
  destruct (y !! i) as [b|]; simpl; [done|]. by rewrite andb_false_r.
Qed.

Lemma foldl_series_and_lookup cs c i :
  default false (foldl series_and c cs !! i)
  = default false (c !! i) && holds_at cs i.
Proof.
  revert c. induction cs as [|c' cs IH]; intros c; simpl.
  - by rewrite andb_true_r.
  - by rewrite IH, series_and_lookup, andb_assoc.
Qed.

Lemma reduce_and_lookup cs i :
  cs ≠ [] → default false (reduce_and cs !! i) = holds_at cs i.
Proof.
  destruct cs as [|c cs]; [done|]. intros _. simpl.
  apply foldl_series_and_lookup.
Qed.

Lemma prior_column_length df c :
  wf_df df → length (prior_column df c) = nrows df.
Proof.
  intros Hwf. unfold prior_column.
  destruct (columns df !! c) as [s|] eqn:E; simpl.
  - by apply (Hwf c).
  - by rewrite length_replicate.
Qed.

Lemma loc_set_one_wf df mask c : wf_df df → wf_df (loc_set_one df mask c).
Proof.
  intros Hwf c' s. unfold loc_set_one. simpl.
  rewrite lookup_insert. case_decide.
  - intros [= <-]. by rewrite mark_rows_length, prior_column_length.
  - apply Hwf.
Qed.

(** C5.  When the list of conditions is not empty, the generated
    evaluator returns a table with the same rows in which every column but
    the signal column is as before, and in which the signal of a row is 1
    when all conditions hold on the row and is the row's prior signal
    otherwise (the prior signal of a table without the column being
    unset, NaN).  No row is ever written with anything but 1. *)
Theorem marking_sets_true_and_frames ev params df cs :
  conditions_of ev params df = Ok cs →
  cs ≠ [] →
  ∃ df' sig,
    generated ev params df = Ok df' ∧
    nrows df' = nrows df ∧
    (wf_df df → wf_df df') ∧
    (∀ c, c ≠ signal_of ev → columns df' !! c = columns df !! c) ∧
    columns df' !! signal_of ev = Some sig ∧
    ∀ i, sig !! i =
         (λ old, if holds_at cs i then flt_one else old)
           <$> prior_column df (signal_of ev) !! i.
Proof.
  intros Hcs Hne. rewrite generated_unfold, Hcs. simpl.
  destruct cs as [|c cs]; [done|].
  eexists _, _. split; [reflexivity|].
  cbn [mark_signal]. split; [done|]. split; [apply loc_set_one_wf|].
  split; [|split].
  - intros c' Hc'. simpl. by rewrite lookup_insert_ne.
  - simpl. apply lookup_insert_eq.
  - intros i. rewrite mark_rows_lookup.
    change (foldl series_and c cs) with (reduce_and (c :: cs)).
    by rewrite reduce_and_lookup.
Qed.

Lemma marking_sets_true_and_frames_witness :
  conditions_of BBRSI_buy params_rsi_trigger bbrsi_annotated3
  = Ok [[true; true; false]; [false; true; false]] ∧
  ∃ df' sig,
    generated BBRSI_buy params_rsi_trigger bbrsi_annotated3 = Ok df' ∧
    nrows df' = nrows bbrsi_annotated3 ∧
    (wf_df bbrsi_annotated3 → wf_df df') ∧
    (∀ c, c ≠ "buy" → columns df' !! c = columns bbrsi_annotated3 !! c) ∧
    columns df' !! "buy" = Some sig ∧
    ∀ i, sig !! i =
         (λ old, if holds_at [[true; true; false]; [false; true; false]] i
                 then flt_one else old)
           <$> prior_column bbrsi_annotated3 "buy" !! i.
Proof.
  assert (conditions_of BBRSI_buy params_rsi_trigger bbrsi_annotated3
          = Ok [[true; true; false]; [false; true; false]]) as Hcs
    by (by vm_compute).
  split; [exact Hcs|].
  apply (marking_sets_true_and_frames BBRSI_buy _ _ _ Hcs). discriminate.
Defined.

(** The run of the witness, row by row: only the second row is marked,
    the others stay unset. *)
Example marking_example :
  (generated BBRSI_buy params_rsi_trigger bbrsi_annotated3
     ≫= λ d, getitem d "buy")
  = Ok [FNaN; flt_one; FNaN].
Proof. by vm_compute. Qed.

(** ** The annotators *)

Lemma align_length n s : length (align n s) = n.
Proof.
  unfold align. rewrite length_app, length_take, length_replicate. lia.
Qed.

Lemma align_id n s : length s = n → align n s = s.
Proof.
  intros <-. unfold align.
  by rewrite firstn_all, Nat.sub_diag, app_nil_r.
Qed.

Lemma setitem_lookup d c s c' :
  columns (setitem d c s) !! c' =
    if decide (c = c') then Some (align (nrows d) s) else columns d !! c'.
Proof. unfold setitem. simpl. apply lookup_insert. Qed.

Lemma setitem_wf d c s : wf_df d → wf_df (setitem d c s).
Proof.
  intros Hwf c' s'. rewrite setitem_lookup. case_decide.
  - intros [= <-]. apply align_length.
  - apply Hwf.
Qed.

Lemma setitem_same_prices d c s :
  c ∉ price_columns → same_prices d (setitem d c s).
Proof.
  intros Hc. split; [done|]. intros c' Hc'. rewrite setitem_lookup.
  case_decide; [by subst|done].
Qed.

Lemma adds_refl d : adds ∅ d d.
Proof. split; [done|]. split; [done|]. set_solver. Qed.

Lemma adds_step X d d1 c s :
  adds X d d1 → adds ({[c]} ∪ X) d (setitem d1 c s).
Proof.
  intros (Hn & Hframe & Hnew). split; [done|]. split.
  - intros c' Hc'. rewrite setitem_lookup.
    case_decide; [set_solver|]. apply Hframe. set_solver.
  - intros c' Hc'. rewrite setitem_lookup. case_decide.
    + eexists. split; [done|]. by rewrite align_length.
    + apply Hnew. set_solver.
Qed.

Lemma adds_eq X Y d d' : X = Y → adds X d d' → adds Y d d'.
Proof. by intros ->. Qed.

Local Ltac split_binds H :=
  repeat (let x := fresh "x" in
          let E := fresh "E" in
          apply bind_Ok in H as (x & E & H)).

Lemma annotate_adds s L df df' :
  annotate s L df = Ok df' →
  adds (list_to_set (indicator_columns_of s)) df df'.
Proof.
  intros H. destruct s; simpl in H.
  - unfold BBRSIHyperOpt.populate_indicators in H.
    split_binds H. injection H as <-.
    eapply adds_eq; [|repeat apply adds_step; apply adds_refl].
    unfold indicator_columns_of, BBRSIHyperOpt.indicator_columns.
    set_solver.
  - unfold Strategy002Hyperopt.populate_indicators in H.
    split_binds H. injection H as <-.
    eapply adds_eq; [|repeat apply adds_step; apply adds_refl].
    unfold indicator_columns_of, Strategy002Hyperopt.indicator_columns.
    set_solver.
Qed.

Lemma adds_wf X d d' : adds X d d' → wf_df d → wf_df d'.
Proof.
  intros (Hn & Hframe & Hnew) Hwf c s Hc.
  destruct (decide (c ∈ X)) as [Hin|Hin].
  - destruct (Hnew c Hin) as (col & Hcol & Hlen). simplify_eq. congruence.
  - rewrite Hframe in Hc by done. rewrite Hn. by apply (Hwf c).
Qed.

Lemma adds_dom X d d' :
  adds X d d' → dom (columns d') = dom (columns d) ∪ X.
Proof.
  intros (Hn & Hframe & Hnew). apply set_eq. intros c.
  rewrite elem_of_union, !elem_of_dom.
  destruct (decide (c ∈ X)) as [Hin|Hin].
  - destruct (Hnew c Hin) as (col & Hcol & _). rewrite Hcol. naive_solver.
  - rewrite Hframe by done. naive_solver.
Qed.

Lemma same_prices_refl d : same_prices d d.
Proof. by split. Qed.

Lemma same_prices_setitem d d1 c s :
  same_prices d d1 → c ∉ price_columns → same_prices d (setitem d1 c s).
Proof.
  intros [Hn Hp] Hc. split; [done|]. intros c' Hc'.
  rewrite setitem_lookup. case_decide; [by subst|by apply Hp].
Qed.

Local Ltac same_prices_tac :=
  repeat (apply same_prices_setitem;
          [|unfold price_columns; set_solver]);
  apply same_prices_refl.

(** A library call on a table the annotator has already written to is
    the call on the table it was given. *)
Local Ltac back_to_input L df :=
  repeat match goal with
  | |- context [ta_RSI L ?d] =>
      lazymatch d with df => fail | _ => idtac end;
      rewrite <- (ta_RSI_prices L df d) by same_prices_tac
  | |- context [ta_STOCH L ?d] =>
      lazymatch d with df => fail | _ => idtac end;
      rewrite <- (ta_STOCH_prices L df d) by same_prices_tac
  | |- context [ta_SAR L ?d] =>
      lazymatch d with df => fail | _ => idtac end;
      rewrite <- (ta_SAR_prices L df d) by same_prices_tac
  | |- context [ta_CDLHAMMER L ?d] =>
      lazymatch d with df => fail | _ => idtac end;
      rewrite <- (ta_CDLHAMMER_prices L df d) by same_prices_tac
  | |- context [typical_price L ?d] =>
      lazymatch d with df => fail | _ => idtac end;
      rewrite <- (typical_price_prices L df d) by same_prices_tac
  end.

Lemma annotate_returns s L df :
  library_returns s L df → ∃ df', annotate s L df = Ok df'.
Proof.
  destruct s; simpl.
  - intros ([r Hr] & [t Ht]).
    unfold BBRSIHyperOpt.populate_indicators.
    rewrite Hr. simpl. back_to_input L df. rewrite Hr. simpl.
    back_to_input L df. rewrite Ht. simpl.
    back_to_input L df. rewrite Ht. simpl.
    back_to_input L df. rewrite Ht. simpl.
    back_to_input L df. rewrite Ht. simpl.
    by eexists.
  - intros ([k Hk] & [r Hr] & [t Ht] & [a Ha] & [h Hh]).
    unfold Strategy002Hyperopt.populate_indicators.
    rewrite Hk. simpl. back_to_input L df. rewrite Hr. simpl.
    unfold getitem at 1. rewrite setitem_lookup.
    rewrite decide_True by done. simpl.
    back_to_input L df. rewrite Ht. simpl.
    back_to_input L df. rewrite Ht. simpl.
    back_to_input L df. rewrite Ht. simpl.
    back_to_input L df. rewrite Ht. simpl.
    back_to_input L df. rewrite Ha. simpl.
    back_to_input L df. rewrite Hh. simpl.
    by eexists.
Qed.

(** C8.  On a price table, [populate_indicators] of either strategy
    returns (as soon as the library calls do) a table with the same row
    count in which every original column is unchanged (rows in place,
    values as they were), whose columns are the original ones together
    with the fixed list of indicator columns, each spanning the index;
    and a second call on an equal table gives an equal result. *)
Theorem populate_indicators_frame s L df :
  price_table s df →
  library_returns s L df →
  ∃ df',
    annotate s L df = Ok df' ∧
    nrows df' = nrows df ∧
    (wf_df df → wf_df df') ∧
    (∀ c col, columns df !! c = Some col → columns df' !! c = Some col) ∧
    dom (columns df')
      = dom (columns df) ∪ list_to_set (indicator_columns_of s) ∧
    (∀ c, c ∈ indicator_columns_of s →
          ∃ col, columns df' !! c = Some col ∧ length col = nrows df) ∧
    (∀ d2, d2 = df → annotate s L d2 = Ok df').
Proof.
  intros Hraw Hlib. destruct (annotate_returns s L df Hlib) as [df' H].
  exists df'. split; [done|].
  pose proof (annotate_adds s L df df' H) as Hadds.
  destruct Hadds as (Hn & Hframe & Hnew).
  split; [done|]. split; [by apply (adds_wf _ _ _ (annotate_adds _ _ _ _ H))|].
  split; [|split; [by apply adds_dom|split]].
  - intros c col Hc. rewrite Hframe; [done|].
    rewrite elem_of_list_to_set. intros Hin.
    apply (proj1 (Forall_forall _ _) Hraw) in Hin. congruence.
  - intros c Hc. apply Hnew. by rewrite elem_of_list_to_set.
  - by intros d2 ->.
Qed.

(** Without the assumption on the input, the columns that are not named
    like an indicator are still untouched. *)
Lemma annotate_untouched s L df df' c :
  annotate s L df = Ok df' →
  c ∉ indicator_columns_of s →
  columns df' !! c = columns df !! c.
Proof.
  intros H Hc. destruct (annotate_adds s L df df' H) as (_ & Hframe & _).
  apply Hframe. by rewrite elem_of_list_to_set.
Qed.

Lemma prices3_price_table s : price_table s prices3.
Proof.
  destruct s; unfold price_table; simpl;
    repeat apply Forall_cons_2; try apply Forall_nil_2; reflexivity.
Defined.

Lemma bbrsi_annotated3_eq :
  BBRSIHyperOpt.populate_indicators sample_lib prices3 = Ok bbrsi_annotated3.
Proof. by vm_compute. Qed.

Lemma s002_annotated3_eq :
  Strategy002Hyperopt.populate_indicators sample_lib prices3
  = Ok s002_annotated3.
Proof. by vm_compute. Qed.

Lemma prices3_library_returns s : library_returns s sample_lib prices3.
Proof. destruct s; simpl; repeat split; by eexists. Defined.

Lemma populate_indicators_frame_witness :
  price_table Strategy002 prices3 ∧
  library_returns Strategy002 sample_lib prices3 ∧
  ∃ df',
    annotate Strategy002 sample_lib prices3 = Ok df' ∧
    nrows df' = nrows prices3 ∧
    (wf_df prices3 → wf_df df') ∧
    (∀ c col, columns prices3 !! c = Some col →
              columns df' !! c = Some col) ∧
    dom (columns df')
      = dom (columns prices3)
          ∪ list_to_set (indicator_columns_of Strategy002) ∧
    (∀ c, c ∈ indicator_columns_of Strategy002 →
          ∃ col, columns df' !! c = Some col ∧ length col = nrows prices3) ∧
    (∀ d2, d2 = prices3 → annotate Strategy002 sample_lib d2 = Ok df').
Proof.
  split; [apply prices3_price_table|].
  split; [apply prices3_library_returns|].
  exact (populate_indicators_frame Strategy002 sample_lib prices3
           (prices3_price_table Strategy002)
           (prices3_library_returns Strategy002)).
Defined.

(** C10.  In the table [BBRSIHyperOpt.populate_indicators] returns, the
    column ['sell-rsi'] is the column ['rsi']. *)
Theorem sell_rsi_is_rsi L df df' :
  BBRSIHyperOpt.populate_indicators L df = Ok df' →
  ∃ col, columns df' !! "rsi" = Some col ∧
         columns df' !! "sell-rsi" = Some col ∧
         length col = nrows df'.
Proof.
  intros H. unfold BBRSIHyperOpt.populate_indicators in H.
  apply bind_Ok in H as (rsi & Hrsi & H).
  apply bind_Ok in H as (sell_rsi & Hsell & H).
  rewrite <- (ta_RSI_prices L df) in Hsell
    by (apply setitem_same_prices; unfold price_columns; set_solver).
  assert (sell_rsi = rsi) as -> by congruence.
  split_binds H. injection H as <-.
  exists (align (nrows df) rsi). simpl.
  repeat (rewrite lookup_insert_ne by done).
  rewrite lookup_insert_eq.
  repeat (rewrite lookup_insert_ne by done).
  rewrite lookup_insert_eq.
  split; [done|]. split; [done|]. apply align_length.
Qed.

Lemma sell_rsi_is_rsi_witness :
  BBRSIHyperOpt.populate_indicators sample_lib prices3 = Ok bbrsi_annotated3 ∧
  ∃ col, columns bbrsi_annotated3 !! "rsi" = Some col ∧
         columns bbrsi_annotated3 !! "sell-rsi" = Some col ∧
         length col = nrows bbrsi_annotated3.
Proof.
  assert (BBRSIHyperOpt.populate_indicators sample_lib prices3
          = Ok bbrsi_annotated3) as H by (by vm_compute).
  split; [exact H|]. exact (sell_rsi_is_rsi sample_lib prices3 _ H).
Defined.

(** ** The guard of ['sell-fisher-rsi-enabled'] *)

Lemma in_fisher_value_domain v :
  in_space Strategy002Hyperopt.sell_indicator_space
    "sell-fisher-rsi-value" v = true →
  ∃ q, v = PFloat (FFin q) ∧ (Q2Qc (-1) <= q)%Qc ∧ (q <= Q2Qc 1)%Qc.
Proof.
  unfold in_space. cbn. rewrite !orb_false_r.
  destruct v as [| | |[| |q|]|]; try discriminate.
  intros [_ [H1 H2]%andb_true_iff]%andb_true_iff.
  apply bool_decide_eq_true in H1, H2. by exists q.
Qed.

(** C9.  The guard switched on by ['sell-fisher-rsi-enabled'] appends the
    comparison of the column ['rsi'] with ['sell-fisher-rsi-value'], row
    by row, whatever the two hold, and does not depend on the column
    ['fisher_rsi'].  With the value in its declared range [-1.0, 1.0] and
    ['rsi'] above 1.0 on every row, the appended condition holds on every
    row. *)
Theorem fisher_guard_reads_raw_rsi params df cs v rsi :
  key_on params "sell-fisher-rsi-enabled" →
  params !! "sell-fisher-rsi-value" = Some v →
  columns df !! "rsi" = Some rsi →
  (∀ x, as_num v = Some x →
        Strategy002Hyperopt.sell_guard_fisher_rsi params df cs
        = Ok (cs ++ [map (λ c, flt_gtb c x) rsi])) ∧
  (∀ fisher_rsi,
        Strategy002Hyperopt.sell_guard_fisher_rsi params
          (setitem df "fisher_rsi" fisher_rsi) cs
        = Strategy002Hyperopt.sell_guard_fisher_rsi params df cs) ∧
  (in_space Strategy002Hyperopt.sell_indicator_space
     "sell-fisher-rsi-value" v = true →
   Forall (λ x, flt_gtb x (flt_of_Z 1) = true) rsi →
   ∃ c, series_gt_val rsi v = Ok c ∧
        Strategy002Hyperopt.sell_guard_fisher_rsi params df cs
          = Ok (cs ++ [c]) ∧
        length c = length rsi ∧
        Forall (λ b, b = true) c).
Proof.
  intros Hon Hv Hrsi. split; [|split].
  - intros x Hx. unfold Strategy002Hyperopt.sell_guard_fisher_rsi.
    apply (guard_on _ _ _ _ _ _ _ rsi v); [done..|].
    simpl. unfold series_gt_val. by rewrite Hx.
  - intros fisher_rsi.
    unfold Strategy002Hyperopt.sell_guard_fisher_rsi, guard, getitem.
    rewrite setitem_lookup. by rewrite decide_False by done.
  - intros Hdom Hbig.
    destruct (in_fisher_value_domain v Hdom) as (q & -> & Hlo & Hhi).
    exists (map (λ x, flt_gtb x (FFin q)) rsi).
    split; [done|]. split; [|split].
    + unfold Strategy002Hyperopt.sell_guard_fisher_rsi.
      by apply (guard_on _ _ _ _ _ _ _ rsi (PFloat (FFin q))).
    + by rewrite length_map.
    + apply Forall_map. eapply Forall_impl; [exact Hbig|].
      intros x Hx. simpl in *. unfold flt_gtb in *.
      destruct x as [| |a|]; try done. simpl in *.
      apply bool_decide_eq_true in Hx. apply bool_decide_eq_true.
      eapply Qcle_lt_trans; [exact Hhi|exact Hx].
Qed.

Lemma fisher_guard_reads_raw_rsi_witness :
  key_on params_fisher "sell-fisher-rsi-enabled" ∧
  Forall (λ x, flt_gtb x (flt_of_Z 1) = true) (zs [55; 70; 31]%Z) ∧
  Strategy002Hyperopt.sell_guard_fisher_rsi params_fisher rsi_scale3 []
  = Ok ([] ++ [map (λ c, flt_gtb c (FFin (Q2Qc (1 # 2))))
                 (zs [55; 70; 31]%Z)]) ∧
  (∀ fisher_rsi,
        Strategy002Hyperopt.sell_guard_fisher_rsi params_fisher
          (setitem rsi_scale3 "fisher_rsi" fisher_rsi) []
        = Strategy002Hyperopt.sell_guard_fisher_rsi params_fisher
            rsi_scale3 []) ∧
  ∃ c, series_gt_val (zs [55; 70; 31]%Z) (PFloat (FFin (Q2Qc (1 # 2)))) = Ok c ∧
       Strategy002Hyperopt.sell_guard_fisher_rsi params_fisher rsi_scale3 []
         = Ok ([] ++ [c]) ∧
       length c = length (zs [55; 70; 31]%Z) ∧
       Forall (λ b, b = true) c.
Proof.
  assert (key_on params_fisher "sell-fisher-rsi-enabled") as Hon
    by (by exists (PBool true)).
  assert (Forall (λ x, flt_gtb x (flt_of_Z 1) = true) (zs [55; 70; 31]%Z))
    as Hbig.
  { unfold zs. simpl. repeat apply Forall_cons_2; try apply Forall_nil_2;
      by vm_compute. }
  split; [exact Hon|]. split; [exact Hbig|].
  destruct (fisher_guard_reads_raw_rsi params_fisher rsi_scale3 []
              (PFloat (FFin (Q2Qc (1 # 2)))) (zs [55; 70; 31]%Z)
              Hon eq_refl eq_refl) as (H1 & H2 & H3).
  split; [exact (H1 _ eq_refl)|]. split; [exact H2|].
  exact (H3 eq_refl Hbig).
Defined.

(** The whole sell evaluator on that table marks every row, although
    ['fisher_rsi'] is below the value on every row. *)
Example fisher_guard_example :
  (Strategy002Hyperopt.sell_strategy_generator params_fisher rsi_scale3
     ≫= λ d, getitem d "sell")
  = Ok [flt_one; flt_one; flt_one].
Proof. by vm_compute. Qed.

(** Where ['rsi'] is not above the value on every row, the guard holds
    on the rows on which it is: with ['rsi'] 0, 70, 31 and the value 1/2
    the first row fails. *)
Example fisher_guard_mixed_example :
  Strategy002Hyperopt.sell_guard_fisher_rsi params_fisher
    (mkDF 3 (list_to_map [("rsi", zs [0; 70; 31]%Z)])) []
  = Ok [[false; true; true]].
Proof. by vm_compute. Qed.

(** ** The guard of ['CDLHAMMER-enabled'] *)

Lemma params_hammer_assignment :
  is_assignment (space_of Strategy002_buy) params_hammer.
Proof. intros k v H. unfold params_hammer in H. solve_lookups H. Qed.

(** Under every assignment over the declared spaces the third guard of
    [Strategy002Hyperopt]'s buy evaluator appends nothing: it is entered
    on a key no dimension has. *)
Lemma cdlhammer_guard_dead params df cs :
  is_assignment (space_of Strategy002_buy) params →
  guard params "CDLHAMMER" "CDLHAMMER-enabled"
    "CDLHAMMER" Eq "CDLHAMMER-value" df cs = Ok cs.
Proof.
  intros H. apply guard_absent. by apply strategy002_no_CDLHAMMER_key.
Qed.

(** C1.  With ['CDLHAMMER-enabled'] present and true and
    ['CDLHAMMER-value'] 100, on a table whose ['CDLHAMMER'] column is 100
    on every row, the buy evaluator of [Strategy002Hyperopt] appends no
    condition and marks no row. *)
Theorem cdlhammer_guard_not_appended :
  is_assignment (space_of Strategy002_buy) params_hammer ∧
  key_on params_hammer "CDLHAMMER-enabled" ∧
  (getitem s002_annotated3 "CDLHAMMER"
     ≫= λ s, Ok (series_eq_val s (PInt 100))) = Ok [true; true; true] ∧
  Strategy002Hyperopt.buy_conditions params_hammer s002_annotated3 = Ok [] ∧
  Strategy002Hyperopt.buy_strategy_generator params_hammer s002_annotated3
  = Ok s002_annotated3.
Proof.
  split; [apply params_hammer_assignment|].
  split; [by exists (PBool true)|].
  split; [by vm_compute|].
  assert (Strategy002Hyperopt.buy_conditions params_hammer s002_annotated3
          = Ok []) as H by (by vm_compute).
  split; [done|].
  unfold Strategy002Hyperopt.buy_strategy_generator. by rewrite H.
Qed.

(** The guards written with one key for the presence test and the truth
    test do what the claim says: the comparison is appended exactly when
    the key is on. *)
Lemma guard_appended_iff_on params k col op kv df cs s v c :
  columns df !! col = Some s → params !! kv = Some v →
  compare_val op s v = Ok c →
  guard params k k col op kv df cs
  = Ok (if enabled params k then cs ++ [c] else cs).
Proof.
  intros Hs Hv Hc. rewrite guard_same_key.
  destruct (enabled params k); [|done].
  unfold getitem, param. rewrite Hs, Hv. simpl. by rewrite Hc.
Qed.

(** ** The trigger blocks *)

Lemma branch_lt_hit params key choice lhs rhs df cs a b :
  params !! key = Some (PStr choice) →
  columns df !! lhs = Some a → columns df !! rhs = Some b →
  branch_lt params key choice lhs rhs df cs = Ok (cs ++ [series_lt a b]).
Proof.
  intros Hk Ha Hb. unfold branch_lt, param, getitem.
  rewrite Hk, Ha, Hb. simpl. by rewrite bool_decide_eq_true_2.
Qed.

Lemma branch_lt_miss params key choice lhs rhs df cs v :
  params !! key = Some v → v ≠ PStr choice →
  branch_lt params key choice lhs rhs df cs = Ok cs.
Proof.
  intros Hk Hv. unfold branch_lt, param. rewrite Hk. simpl.
  by rewrite bool_decide_eq_false_2.
Qed.

(** In the buy evaluators, a ['trigger'] value of the declared domain
    appends one condition, the comparison of ['close'] with the band the
    value selects. *)
Lemma buy_triggers_one_branch params df cs choice close band :
  params !! "trigger" = Some (PStr choice) →
  choice ∈ ["bb_lower1"; "bb_lower2"; "bb_lower3"; "bb_lower4"] →
  columns df !! "close" = Some close →
  columns df !! band_of choice = Some band →
  BBRSIHyperOpt.buy_triggers params df cs = Ok (cs ++ [series_lt close band]) ∧
  Strategy002Hyperopt.buy_triggers params df cs
  = Ok (cs ++ [series_lt close band]).
Proof.
  intros Hk Hin Hclose Hband.
  assert (contains params "trigger" = true) as Hc
    by (apply contains_true; eauto).
  unfold BBRSIHyperOpt.buy_triggers, Strategy002Hyperopt.buy_triggers.
  rewrite Hc.
  repeat (apply elem_of_cons in Hin as [->|Hin]);
    [ | | | | by apply elem_of_nil in Hin];
    split;
    repeat first
      [ rewrite (branch_lt_hit _ _ _ _ _ _ _ close band Hk Hclose Hband)
      | rewrite (branch_lt_miss _ _ _ _ _ _ _ _ Hk) by done
      | progress simpl ];
    reflexivity.
Qed.

(** C3.  In the sell evaluator of [BBRSIHyperOpt], an assignment that
    holds ['sell-trigger'] with a value of its declared domain appends no
    trigger condition: without a ['trigger'] key the evaluator raises
    [KeyError('trigger')], and with the buy side's ['trigger'] present
    next to it the block runs and appends nothing. *)
Theorem sell_trigger_appends_none :
  is_assignment (space_of BBRSI_sell) params_sell_trigger ∧
  BBRSIHyperOpt.sell_strategy_generator params_sell_trigger bbrsi_annotated3
  = Raise (ParamKeyError "trigger") ∧
  is_assignment (space_of BBRSI_sell) params_both_triggers ∧
  BBRSIHyperOpt.sell_triggers params_both_triggers bbrsi_annotated3 []
  = Ok [] ∧
  BBRSIHyperOpt.sell_strategy_generator params_both_triggers bbrsi_annotated3
  = Ok bbrsi_annotated3.
Proof.
  split.
  { intros k v H. unfold params_sell_trigger in H. solve_lookups H. }
  split; [by vm_compute|]. split.
  { intros k v H. unfold params_both_triggers in H. solve_lookups H. }
  split; [by vm_compute|].
  assert (BBRSIHyperOpt.sell_conditions params_both_triggers bbrsi_annotated3
          = Ok []) as H by (by vm_compute).
  unfold BBRSIHyperOpt.sell_strategy_generator. by rewrite H.
Qed.

(** ** The static reference evaluators *)

(** The annotators assign no column named ['bb_lowerband'] or
    ['bb_middleband']. *)
Lemma annotate_no_plain_band s L df df' c :
  c = "bb_lowerband" ∨ c = "bb_middleband" →
  annotate s L df = Ok df' →
  columns df' !! c = columns df !! c.
Proof.
  intros Hc H. apply (annotate_untouched s L df df' c H).
  destruct s, Hc as [->| ->]; simpl;
    unfold BBRSIHyperOpt.indicator_columns,
           Strategy002Hyperopt.indicator_columns;
    set_solver.
Qed.

(** On every table that has ['close'] and arrives without a
    ['bb_lowerband'] column, the reference buy rule of [BBRSIHyperOpt]
    raises after annotation. *)
Lemma bbrsi_reference_buy_raises L df df' close :
  columns df !! "close" = Some close →
  columns df !! "bb_lowerband" = None →
  BBRSIHyperOpt.populate_indicators L df = Ok df' →
  BBRSIHyperOpt.populate_buy_trend df' = Raise (ColumnKeyError "bb_lowerband").
Proof.
  intros Hclose Hband H.
  destruct (annotate_adds BBRSI L df df' H) as (_ & Hframe & Hnew).
  destruct (Hnew "rsi") as (rsi & Hrsi & _);
    [unfold indicator_columns_of, BBRSIHyperOpt.indicator_columns;
     set_solver|].
  unfold BBRSIHyperOpt.populate_buy_trend, getitem.
  rewrite Hrsi. simpl.
  rewrite (annotate_untouched BBRSI L df df' "close" H), Hclose
    by (simpl; unfold BBRSIHyperOpt.indicator_columns; set_solver).
  simpl.
  by rewrite (annotate_no_plain_band BBRSI L df df' "bb_lowerband"), Hband
    by auto.
Qed.

(** C4.  On the annotated price table the reference buy rule of
    [BBRSIHyperOpt] raises [KeyError('bb_lowerband')], its reference sell
    rule raises [KeyError('bb_middleband')], and the reference buy rule of
    [Strategy002Hyperopt] raises [KeyError('bb_lowerband')].  The
    reference sell rule of [Strategy002Hyperopt] reads columns the
    annotator provides and returns. *)
Theorem reference_rules_read_missing_band :
  BBRSIHyperOpt.populate_indicators sample_lib prices3 = Ok bbrsi_annotated3 ∧
  BBRSIHyperOpt.populate_buy_trend bbrsi_annotated3
  = Raise (ColumnKeyError "bb_lowerband") ∧
  BBRSIHyperOpt.populate_sell_trend bbrsi_annotated3
  = Raise (ColumnKeyError "bb_middleband") ∧
  Strategy002Hyperopt.populate_indicators sample_lib prices3
  = Ok s002_annotated3 ∧
  Strategy002Hyperopt.populate_buy_trend s002_annotated3
  = Raise (ColumnKeyError "bb_lowerband") ∧
  ∃ d, Strategy002Hyperopt.populate_sell_trend s002_annotated3 = Ok d.
Proof.
  split; [apply bbrsi_annotated3_eq|].
  split; [by vm_compute|]. split; [by vm_compute|].
  split; [apply s002_annotated3_eq|].
  split; [by vm_compute|].
  destruct (Strategy002Hyperopt.populate_sell_trend s002_annotated3)
    as [d|e] eqn:E; [by exists d|by vm_compute in E].
Qed.

(** ** Lookups of absent keys *)

Lemma no_param_error_Ok {A} (a : A) : no_param_error (Ok a).
Proof. by intros k. Qed.

Lemma no_param_error_bind {A B} (m : result A) (f : A → result B) :
  no_param_error m → (∀ a, m = Ok a → no_param_error (f a)) →
  no_param_error (m ≫= f).
Proof.
  intros Hm Hf k. destruct m as [a|e]; simpl.
  - by apply Hf.
  - intros [= ->]. by apply (Hm k).
Qed.

Lemma no_param_error_getitem df c : no_param_error (getitem df c).
Proof. intros k. unfold getitem. by destruct (columns df !! c). Qed.

Lemma no_param_error_compare op s v : no_param_error (compare_val op s v).
Proof.
  intros k. destruct op; simpl; [| |done];
    unfold series_lt_val, series_gt_val; by destruct (as_num v).
Qed.

Lemma no_param_error_param params k :
  is_Some (params !! k) → no_param_error (param params k).
Proof. intros [v Hv] k'. unfold param. by rewrite Hv. Qed.

Lemma no_param_error_guard params k col op kv df cs :
  (key_on params k → is_Some (params !! kv)) →
  no_param_error (guard params k k col op kv df cs).
Proof.
  intros H. rewrite guard_same_key.
  destruct (enabled params k) eqn:E; [|apply no_param_error_Ok].
  apply enabled_true in E.
  apply no_param_error_bind; [apply no_param_error_getitem|]. intros s _.
  apply no_param_error_bind; [by apply no_param_error_param, H|]. intros v _.
  apply no_param_error_bind; [apply no_param_error_compare|]. intros c _.
  apply no_param_error_Ok.
Qed.

Lemma no_param_error_branch params key choice lhs rhs df cs :
  is_Some (params !! key) →
  no_param_error (branch_lt params key choice lhs rhs df cs).
Proof.
  intros H. unfold branch_lt.
  apply no_param_error_bind; [by apply no_param_error_param|]. intros v _.
  destruct (bool_decide _); [|apply no_param_error_Ok].
  apply no_param_error_bind; [apply no_param_error_getitem|]. intros a _.
  apply no_param_error_bind; [apply no_param_error_getitem|]. intros b _.
  apply no_param_error_Ok.
Qed.

(** C2, as stated, fails: a guard that is switched on looks its value key
    up without a presence test. *)
Lemma enabled_guard_needs_value_key :
  generated BBRSI_buy params_rsi_enabled_only bbrsi_annotated3
  = Raise (ParamKeyError "rsi-value").
Proof. by vm_compute. Qed.

Lemma no_param_error_conditions ev params df :
  values_present ev params →
  mismatched_key_absent ev params →
  no_param_error (conditions_of ev params df).
Proof.
  intros Hv Hm.
  assert (∀ k kv, (k, kv) ∈ guard_keys ev →
                  key_on params k → is_Some (params !! kv)) as Hv'.
  { intros k kv Hk. by apply (proj1 (Forall_forall _ _) Hv (k, kv)). }
  destruct ev; simpl in *.
  - unfold BBRSIHyperOpt.buy_conditions, BBRSIHyperOpt.buy_guards,
      BBRSIHyperOpt.buy_triggers.
    apply no_param_error_bind.
    { apply no_param_error_guard, Hv'. repeat constructor. }
    intros cs _. destruct (contains params "trigger") eqn:E;
      [|apply no_param_error_Ok].
    apply contains_true in E.
    repeat (apply no_param_error_bind;
            [by apply no_param_error_branch|intros ? _]).
    by apply no_param_error_branch.
  - unfold BBRSIHyperOpt.sell_conditions, BBRSIHyperOpt.sell_guards,
      BBRSIHyperOpt.sell_triggers.
    apply no_param_error_bind.
    { apply no_param_error_guard, Hv'. repeat constructor. }
    intros cs _. apply contains_false in Hm. rewrite Hm.
    apply no_param_error_Ok.
  - unfold Strategy002Hyperopt.buy_conditions, Strategy002Hyperopt.buy_guards,
      Strategy002Hyperopt.buy_triggers.
    apply no_param_error_bind.
    { apply no_param_error_bind.
      { apply no_param_error_guard, Hv'. repeat constructor. }
      intros cs _. apply no_param_error_bind.
      { apply no_param_error_guard, Hv'. repeat constructor. }
      intros cs' _. rewrite guard_absent by done. apply no_param_error_Ok. }
    intros cs _. destruct (contains params "trigger") eqn:E;
      [|apply no_param_error_Ok].
    apply contains_true in E.
    repeat (apply no_param_error_bind;
            [by apply no_param_error_branch|intros ? _]).
    by apply no_param_error_branch.
  - unfold Strategy002Hyperopt.sell_conditions,
      Strategy002Hyperopt.sell_guard_fisher_rsi,
      Strategy002Hyperopt.sell_guard_sar.
    apply no_param_error_bind.
    { apply no_param_error_guard, Hv'. repeat constructor. }
    intros cs _. apply no_param_error_guard, Hv'. repeat constructor.
Qed.

(** C2, amended.  For any dictionary, whatever keys it has, in which
    every guard that is switched on has its value key, the generated buy
    evaluator of [BBRSIHyperOpt] and the generated sell evaluator of
    [Strategy002Hyperopt] raise no [KeyError] of an assignment lookup on
    any table; so do the sell evaluator of [BBRSIHyperOpt] when
    ['sell-trigger'] is absent and the buy evaluator of
    [Strategy002Hyperopt] when ['CDLHAMMER'] is absent. *)
Theorem no_key_error_when_values_present ev params df :
  values_present ev params →
  mismatched_key_absent ev params →
  no_param_error (generated ev params df).
Proof.
  intros Hv Hm. rewrite generated_unfold.
  apply no_param_error_bind; [by apply no_param_error_conditions|].
  intros cs _. apply no_param_error_Ok.
Qed.

Lemma no_key_error_when_values_present_witness :
  values_present Strategy002_sell params_unknown_keys ∧
  mismatched_key_absent Strategy002_sell params_unknown_keys ∧
  no_param_error (generated Strategy002_sell params_unknown_keys
                    s002_annotated3).
Proof.
  assert (values_present Strategy002_sell params_unknown_keys) as Hv.
  { unfold values_present. simpl.
    repeat apply Forall_cons_2; try apply Forall_nil_2; simpl.
    - intros _. by eexists.
    - intros (v & Hv & _). discriminate Hv. }
  split; [exact Hv|]. split; [exact I|].
  exact (no_key_error_when_values_present Strategy002_sell
           params_unknown_keys s002_annotated3 Hv I).
Defined.

(** The run of the witness returns: the unknown key and the key of the
    buy side are ignored, and every row is marked. *)
Example unknown_keys_example :
  (generated Strategy002_sell params_unknown_keys s002_annotated3
     ≫= λ d, getitem d "sell")
  = Ok [flt_one; flt_one; flt_one].
Proof. by vm_compute. Qed.


(** ** The examples of the specification *)

(** [close = [10, 5, 12]], lower band [[8, 8, 8]], the trigger alone:
    the second row is marked. *)
Example trigger_example :
  (BBRSIHyperOpt.buy_strategy_generator
     (<["trigger" := PStr "bb_lower1"]> ∅)
     (mkDF 3 (list_to_map [("close", zs [10; 5; 12]%Z);
                           ("bb_lowerband1", zs [8; 8; 8]%Z)]))
     ≫= λ d, getitem d "buy")
  = Ok [FNaN; flt_one; FNaN].
Proof. by vm_compute. Qed.

(** An oscillator [[25, 35, 29]] guarded by [< 30], no trigger: the first
    and the third row are marked. *)
Example guard_example :
  (BBRSIHyperOpt.buy_strategy_generator
     (<["rsi-enabled" := PBool true]> (<["rsi-value" := PInt 30]> ∅))
     (mkDF 3 (list_to_map [("rsi", zs [25; 35; 29]%Z)]))
     ≫= λ d, getitem d "buy")
  = Ok [flt_one; FNaN; flt_one].
Proof. by vm_compute. Qed.

(** The empty assignment leaves the table as it is, signal included. *)
Example empty_assignment_example ev df : generated ev ∅ df = Ok df.
Proof.
  rewrite generated_unfold, conditions_of_disabled; [done| | |done].
  - apply Forall_forall. intros g _. by left.
  - by apply Forall_forall.
Qed.

(** Marking keeps a signal set by an earlier pass on rows that no longer
    match. *)
Example no_unmark_example :
  (BBRSIHyperOpt.buy_strategy_generator
     (<["trigger" := PStr "bb_lower1"]> ∅)
     (mkDF 3 (list_to_map [("close", zs [10; 5; 12]%Z);
                           ("bb_lowerband1", zs [8; 8; 8]%Z);
                           ("buy", zs [1; 0; 0]%Z)]))
     ≫= λ d, getitem d "buy")
  = Ok (zs [1; 1; 0]%Z).
Proof. by vm_compute. Qed.

(** * Further properties of the modelled code *)

(** ** Induction along the statements of a generated evaluator *)

(** A property of the list of conditions that holds of the empty list
    and is kept by every guard statement and every trigger branch holds
    of the list an evaluator builds. *)
Lemma conditions_of_invariant (P : list BoolSeries → Prop) ev params df cs :
  P [] →
  (∀ k_in k_on col op kv cs0 cs1,
      P cs0 → guard params k_in k_on col op kv df cs0 = Ok cs1 → P cs1) →
  (∀ key choice lhs rhs cs0 cs1,
      P cs0 → branch_lt params key choice lhs rhs df cs0 = Ok cs1 → P cs1) →
  conditions_of ev params df = Ok cs → P cs.
Proof.
  intros H0 Hg Hb H.
  destruct ev; simpl in H.
  - unfold BBRSIHyperOpt.buy_conditions, BBRSIHyperOpt.buy_guards,
      BBRSIHyperOpt.buy_triggers in H.
    apply bind_Ok in H as (c1 & E1 & H). apply Hg in E1; [|done].
    destruct (contains params "trigger"); [|by simplify_eq].
    apply bind_Ok in H as (c2 & E2 & H). apply Hb in E2; [|done].
    apply bind_Ok in H as (c3 & E3 & H). apply Hb in E3; [|done].
    apply bind_Ok in H as (c4 & E4 & H). apply Hb in E4; [|done].
    by apply Hb in H.
  - unfold BBRSIHyperOpt.sell_conditions, BBRSIHyperOpt.sell_guards,
      BBRSIHyperOpt.sell_triggers in H.
    apply bind_Ok in H as (c1 & E1 & H). apply Hg in E1; [|done].
    destruct (contains params "sell-trigger"); [|by simplify_eq].
    apply bind_Ok in H as (c2 & E2 & H). apply Hb in E2; [|done].
    apply bind_Ok in H as (c3 & E3 & H). apply Hb in E3; [|done].
    by apply Hb in H.
  - unfold Strategy002Hyperopt.buy_conditions, Strategy002Hyperopt.buy_guards,
      Strategy002Hyperopt.buy_triggers in H.
    apply bind_Ok in H as (g & Eg & H).
    apply bind_Ok in Eg as (c1 & E1 & Eg). apply Hg in E1; [|done].
    apply bind_Ok in Eg as (c2 & E2 & Eg). apply Hg in E2; [|done].
    apply Hg in Eg; [|done].
    destruct (contains params "trigger"); [|by simplify_eq].
    apply bind_Ok in H as (c3 & E3 & H). apply Hb in E3; [|done].
    apply bind_Ok in H as (c4 & E4 & H). apply Hb in E4; [|done].
    apply bind_Ok in H as (c5 & E5 & H). apply Hb in E5; [|done].
    by apply Hb in H.
  - unfold Strategy002Hyperopt.sell_conditions,
      Strategy002Hyperopt.sell_guard_fisher_rsi,
      Strategy002Hyperopt.sell_guard_sar in H.
    apply bind_Ok in H as (c1 & E1 & H). apply Hg in E1; [|done].
    by apply Hg in H.
Qed.

(** What a guard statement and a trigger branch can leave behind. *)
Lemma guard_Ok_inv params k_in k_on col op kv df cs cs' :
  guard params k_in k_on col op kv df cs = Ok cs' →
  cs' = cs ∨
  ∃ s v c, columns df !! col = Some s ∧ params !! kv = Some v ∧
           compare_val op s v = Ok c ∧ cs' = cs ++ [c].
Proof.
  unfold guard. intros (b & Hb & H)%bind_Ok.
  destruct b; [|left; by simplify_eq]. right.
  apply bind_Ok in H as (s & Hs & H).
  apply bind_Ok in H as (v & Hv & H).
  apply bind_Ok in H as (c & Hc & H). simplify_eq.
  exists s, v, c. unfold getitem in Hs. unfold param in Hv.
  destruct (columns df !! col); [|done].
  destruct (params !! kv); [|done]. by simplify_eq.
Qed.

Lemma branch_lt_Ok_inv params key choice lhs rhs df cs cs' :
  branch_lt params key choice lhs rhs df cs = Ok cs' →
  cs' = cs ∨
  ∃ a b, params !! key = Some (PStr choice) ∧
         columns df !! lhs = Some a ∧ columns df !! rhs = Some b ∧
         cs' = cs ++ [series_lt a b].
Proof.
  unfold branch_lt. intros (v & Hv & H)%bind_Ok.
  unfold param in Hv. destruct (params !! key) as [v'|] eqn:Ek; [|done].
  simplify_eq. case_bool_decide; [|left; by simplify_eq]. right. subst.
  apply bind_Ok in H as (a & Ha & H).
  apply bind_Ok in H as (b & Hb & H). simplify_eq.
  exists a, b. unfold getitem in *.
  destruct (columns df !! lhs); [|done].
  destruct (columns df !! rhs); [|done]. by simplify_eq.
Qed.

Lemma compare_val_length op s v c :
  compare_val op s v = Ok c → length c = length s.
Proof.
  destruct op; simpl; unfold series_lt_val, series_gt_val, series_eq_val;
    destruct (as_num v); intros H; simplify_eq; by rewrite length_map.
Qed.

(** ** The conditions span the index *)

(** In a table whose columns all span the index, every condition a
    generated evaluator builds has one entry per row. *)
Theorem conditions_span_index ev params df cs :
  wf_df df →
  conditions_of ev params df = Ok cs →
  Forall (λ c, length c = nrows df) cs.
Proof.
  intros Hwf. apply conditions_of_invariant.
  - constructor.
  - intros k_in k_on col op kv cs0 cs1 H0 [->|(s & v & c & Hs & _ & Hc & ->)]%guard_Ok_inv;
      [done|].
    apply Forall_app. split; [done|]. apply Forall_singleton.
    apply compare_val_length in Hc. rewrite Hc. by apply (Hwf col).
  - intros key choice lhs rhs cs0 cs1 H0 [->|(a & b & _ & Ha & Hb & ->)]%branch_lt_Ok_inv;
      [done|].
    apply Forall_app. split; [done|]. apply Forall_singleton.
    unfold series_lt. rewrite length_zip_with.
    rewrite (Hwf lhs a Ha), (Hwf rhs b Hb). lia.
Qed.

Lemma prices3_wf : wf_df prices3.
Proof.
  intros c s H. unfold prices3 in H. simpl in H.
  repeat (apply lookup_insert_Some in H as [[_ <-]|[_ H]]; [reflexivity|]).
  by rewrite lookup_empty in H.
Defined.

Lemma bbrsi_annotated3_wf : wf_df bbrsi_annotated3.
Proof.
  apply (adds_wf _ prices3 _
           (annotate_adds BBRSI sample_lib prices3 _ bbrsi_annotated3_eq)).
  apply prices3_wf.
Defined.

Lemma s002_annotated3_wf : wf_df s002_annotated3.
Proof.
  apply (adds_wf _ prices3 _
           (annotate_adds Strategy002 sample_lib prices3 _ s002_annotated3_eq)).
  apply prices3_wf.
Defined.

Lemma conditions_span_index_witness :
  wf_df bbrsi_annotated3 ∧
  conditions_of BBRSI_buy params_rsi_trigger bbrsi_annotated3
  = Ok [[true; true; false]; [false; true; false]] ∧
  Forall (λ c, length c = nrows bbrsi_annotated3)
    [[true; true; false]; [false; true; false]].
Proof.
  assert (conditions_of BBRSI_buy params_rsi_trigger bbrsi_annotated3
          = Ok [[true; true; false]; [false; true; false]]) as Hcs
    by (by vm_compute).
  split; [apply bbrsi_annotated3_wf|]. split; [exact Hcs|].
  exact (conditions_span_index BBRSI_buy params_rsi_trigger bbrsi_annotated3
           _ bbrsi_annotated3_wf Hcs).
Defined.

(** ** The order of the conditions *)

Lemma holds_at_Permutation cs cs' i :
  cs ≡ₚ cs' → holds_at cs i = holds_at cs' i.
Proof.
  unfold holds_at. induction 1 as [|c l l' _ IH|c c' l|l l' l'' _ IH1 _ IH2];
    simpl.
  - done.
  - by rewrite IH.
  - rewrite !andb_assoc. f_equal. apply andb_comm.
  - by rewrite IH1.
Qed.

Lemma mark_rows_ext mask mask' old :
  (∀ i, default false (mask !! i) = default false (mask' !! i)) →
  mark_rows mask old = mark_rows mask' old.
Proof.
  intros H. apply list_eq. intros i. rewrite !mark_rows_lookup.
  by rewrite H.
Qed.

(** Marking does not depend on the order in which the conditions were
    appended: two lists with the same conditions mark the same rows. *)
Theorem mark_signal_order_irrelevant df cs cs' signal :
  cs ≡ₚ cs' →
  mark_signal df cs signal = mark_signal df cs' signal.
Proof.
  intros Hp. destruct cs as [|c cs], cs' as [|c' cs'].
  - done.
  - by apply Permutation_nil_cons in Hp.
  - symmetry in Hp. by apply Permutation_nil_cons in Hp.
  - unfold mark_signal, loc_set_one. f_equal. f_equal.
    apply mark_rows_ext. intros i.
    rewrite !reduce_and_lookup by done. by apply holds_at_Permutation.
Qed.

Lemma mark_signal_order_irrelevant_witness :
  mark_signal bbrsi_annotated3
    [[true; true; false]; [false; true; false]] "buy"
  = mark_signal bbrsi_annotated3
      [[false; true; false]; [true; true; false]] "buy".
Proof.
  apply mark_signal_order_irrelevant. apply Permutation_swap.
Defined.

(** ** Buy and sell evaluators side by side *)

Lemma loc_set_one_commute df m1 m2 c1 c2 :
  c1 ≠ c2 →
  loc_set_one (loc_set_one df m1 c1) m2 c2
  = loc_set_one (loc_set_one df m2 c2) m1 c1.
Proof.
  intros Hne. unfold loc_set_one, prior_column. simpl.
  rewrite !lookup_insert_ne by done. f_equal.
  by apply insert_insert_ne.
Qed.

Lemma mark_signal_commute df cs1 cs2 c1 c2 :
  c1 ≠ c2 →
  mark_signal (mark_signal df cs1 c1) cs2 c2
  = mark_signal (mark_signal df cs2 c2) cs1 c1.
Proof.
  intros Hne. destruct cs1, cs2; simpl; try done.
  by apply loc_set_one_commute.
Qed.

(** A buy evaluator and a sell evaluator that both return on a table can
    be applied one after the other in either order: the second one
    returns as well, and the two orders give the same table. *)
Theorem buy_sell_commute ev1 ev2 p1 p2 df d1 d2 :
  signal_of ev1 ≠ signal_of ev2 →
  generated ev1 p1 df = Ok d1 →
  generated ev2 p2 df = Ok d2 →
  ∃ d, generated ev2 p2 d1 = Ok d ∧ generated ev1 p1 d2 = Ok d.
Proof.
  intros Hne. rewrite !generated_unfold.
  intros (cs1 & H1 & [= <-])%bind_Ok (cs2 & H2 & [= <-])%bind_Ok.
  exists (mark_signal (mark_signal df cs1 (signal_of ev1)) cs2 (signal_of ev2)).
  rewrite (conditions_of_agree ev2 p2 _ df)
    by (apply mark_signal_agree, signal_of_cases).
  rewrite (conditions_of_agree ev1 p1 _ df)
    by (apply mark_signal_agree, signal_of_cases).
  rewrite H1, H2. simpl. split; [done|].
  by rewrite mark_signal_commute.
Qed.

Lemma buy_sell_commute_witness :
  ∃ d1 d2 d,
    generated BBRSI_buy params_buy_and_sell bbrsi_annotated3 = Ok d1 ∧
    generated BBRSI_sell params_buy_and_sell bbrsi_annotated3 = Ok d2 ∧
    generated BBRSI_sell params_buy_and_sell d1 = Ok d ∧
    generated BBRSI_buy params_buy_and_sell d2 = Ok d.
Proof.
  destruct (generated BBRSI_buy params_buy_and_sell bbrsi_annotated3)
    as [d1|e] eqn:E1; [|by vm_compute in E1].
  destruct (generated BBRSI_sell params_buy_and_sell bbrsi_annotated3)
    as [d2|e] eqn:E2; [|by vm_compute in E2].
  destruct (buy_sell_commute BBRSI_buy BBRSI_sell params_buy_and_sell
              params_buy_and_sell bbrsi_annotated3 d1 d2) as (d & Ha & Hb);
    [discriminate|exact E1|exact E2|].
  exists d1, d2, d.
  split; [reflexivity|]. split; [reflexivity|]. split; [exact Ha|exact Hb].
Defined.

(** ** The trigger blocks, in general *)

Lemma in_buy_trigger_domain v :
  in_space BBRSIHyperOpt.indicator_space "trigger" v = true ↔
  ∃ choice, v = PStr choice ∧
            choice ∈ ["bb_lower1"; "bb_lower2"; "bb_lower3"; "bb_lower4"].
Proof.
  assert (in_space BBRSIHyperOpt.indicator_space "trigger" v
          = bool_decide (v ∈ [PStr "bb_lower1"; PStr "bb_lower2";
                              PStr "bb_lower3"; PStr "bb_lower4"])) as ->.
  { unfold in_space. cbn [existsb BBRSIHyperOpt.indicator_space].
    rewrite orb_false_r. reflexivity. }
  rewrite bool_decide_eq_true. split.
  - intros H. repeat (apply elem_of_cons in H as [->|H]);
      [eexists; split; [done|set_solver]..|by apply elem_of_nil in H].
  - intros (choice & -> & H).
    repeat (apply elem_of_cons in H as [->|H]);
      [set_solver..|by apply elem_of_nil in H].
Qed.

(** The trigger block of the two buy evaluators is the same code, and
    the ['trigger'] dimension has the same domain in both files. *)
Lemma buy_trigger_domains_equal v :
  in_space Strategy002Hyperopt.indicator_space "trigger" v
  = in_space BBRSIHyperOpt.indicator_space "trigger" v.
Proof.
  unfold in_space.
  cbn [existsb BBRSIHyperOpt.indicator_space
         Strategy002Hyperopt.indicator_space].
  rewrite !orb_false_r. reflexivity.
Qed.

(** A ['trigger'] value of the declared domain makes the trigger block
    of either buy evaluator append exactly one condition, the comparison
    of ['close'] with the one band the value selects; only that band
    column has to exist. *)
Theorem buy_trigger_appends_one params df cs v close :
  params !! "trigger" = Some v →
  in_space BBRSIHyperOpt.indicator_space "trigger" v = true →
  columns df !! "close" = Some close →
  (∀ choice, v = PStr choice → is_Some (columns df !! band_of choice)) →
  ∃ choice band,
    v = PStr choice ∧ columns df !! band_of choice = Some band ∧
    BBRSIHyperOpt.buy_triggers params df cs
    = Ok (cs ++ [series_lt close band]) ∧
    Strategy002Hyperopt.buy_triggers params df cs
    = Ok (cs ++ [series_lt close band]).
Proof.
  intros Hv (choice & -> & Hin)%in_buy_trigger_domain Hclose Hband.
  destruct (Hband choice eq_refl) as [band Hb].
  exists choice, band. split; [done|]. split; [done|].
  by apply (buy_triggers_one_branch params df cs choice close band).
Qed.

Lemma buy_trigger_appends_one_witness :
  ∃ choice band,
    PStr "bb_lower1" = PStr choice ∧
    columns bbrsi_annotated3 !! band_of choice = Some band ∧
    BBRSIHyperOpt.buy_triggers params_rsi_trigger bbrsi_annotated3 []
    = Ok ([] ++ [series_lt (zs [10; 5; 12]%Z) band]) ∧
    Strategy002Hyperopt.buy_triggers params_rsi_trigger bbrsi_annotated3 []
    = Ok ([] ++ [series_lt (zs [10; 5; 12]%Z) band]).
Proof.
  apply (buy_trigger_appends_one params_rsi_trigger bbrsi_annotated3 []
           (PStr "bb_lower1") (zs [10; 5; 12]%Z)).
  - reflexivity.
  - reflexivity.
  - by vm_compute.
  - intros choice [= <-]. by eexists.
Defined.

(** A ['trigger'] value outside the declared domain is not an error: the
    block of either buy evaluator runs, appends nothing and reads no
    column. *)
Theorem buy_trigger_out_of_domain params df cs v :
  params !! "trigger" = Some v →
  in_space BBRSIHyperOpt.indicator_space "trigger" v = false →
  BBRSIHyperOpt.buy_triggers params df cs = Ok cs ∧
  Strategy002Hyperopt.buy_triggers params df cs = Ok cs.
Proof.
  intros Hv Hdom.
  assert (∀ choice,
            choice ∈ ["bb_lower1"; "bb_lower2"; "bb_lower3"; "bb_lower4"] →
            v ≠ PStr choice) as Hne.
  { intros choice Hin ->.
    assert (in_space BBRSIHyperOpt.indicator_space "trigger" (PStr choice)
            = true) as Ht by (apply in_buy_trigger_domain; eauto).
    congruence. }
  assert (contains params "trigger" = true) as Hc
    by (apply contains_true; eauto).
  unfold BBRSIHyperOpt.buy_triggers, Strategy002Hyperopt.buy_triggers.
  rewrite Hc.
  split;
    repeat (rewrite (branch_lt_miss _ _ _ _ _ _ _ _ Hv)
              by (apply Hne; set_solver); simpl);
    reflexivity.
Qed.

Lemma buy_trigger_out_of_domain_witness :
  BBRSIHyperOpt.buy_triggers params_bad_trigger prices3 [] = Ok [] ∧
  Strategy002Hyperopt.buy_triggers params_bad_trigger prices3 [] = Ok [].
Proof.
  apply (buy_trigger_out_of_domain params_bad_trigger prices3 []
           (PStr "bb_lower5")); reflexivity.
Defined.

(** Under every assignment over the declared spaces of [BBRSIHyperOpt]
    the trigger block of the sell evaluator appends nothing: it raises
    [KeyError('trigger')] when ['sell-trigger'] is present without
    ['trigger'], and otherwise leaves the list as it is, because a
    ['trigger'] value of the buy side matches none of its branches. *)
Theorem sell_trigger_never_appends params df cs :
  is_assignment (space_of BBRSI_sell) params →
  BBRSIHyperOpt.sell_triggers params df cs =
    if contains params "sell-trigger" && negb (contains params "trigger")
    then Raise (ParamKeyError "trigger")
    else Ok cs.
Proof.
  intros Ha. unfold BBRSIHyperOpt.sell_triggers.
  destruct (contains params "sell-trigger"); [|done]. simpl.
  destruct (params !! "trigger") as [v|] eqn:Ev.
  - assert (contains params "trigger" = true) as ->
      by (apply contains_true; eauto).
    simpl.
    assert (∀ choice,
              choice ∈ ["sell_bb_lower1"; "sell_bb_middle1"; "sell_bb_upper1"] →
              v ≠ PStr choice) as Hne.
    { intros choice Hin ->. apply Ha in Ev.
      repeat (apply elem_of_cons in Hin as [->|Hin]);
        [discriminate Ev..|by apply elem_of_nil in Hin]. }
    repeat (rewrite (branch_lt_miss _ _ _ _ _ _ _ _ Ev)
              by (apply Hne; set_solver); simpl).
    reflexivity.
  - assert (contains params "trigger" = false) as ->
      by (by apply contains_false).
    simpl. unfold branch_lt, param. by rewrite Ev.
Qed.

Lemma params_buy_and_sell_assignment :
  is_assignment (space_of BBRSI_sell) params_buy_and_sell.
Proof. intros k v H. unfold params_buy_and_sell in H. solve_lookups H. Defined.

Lemma sell_trigger_never_appends_witness :
  is_assignment (space_of BBRSI_sell) params_buy_and_sell ∧
  BBRSIHyperOpt.sell_triggers params_buy_and_sell bbrsi_annotated3 [] = Ok [].
Proof.
  split; [apply params_buy_and_sell_assignment|].
  exact (sell_trigger_never_appends params_buy_and_sell bbrsi_annotated3 []
           params_buy_and_sell_assignment).
Defined.

(** Under every assignment over the declared spaces of
    [Strategy002Hyperopt] the guard block of the buy evaluator is the
    ['rsi'] guard followed by the ['slowk'] guard: the third guard never
    appends, whatever ['CDLHAMMER-enabled'] holds. *)
Theorem cdlhammer_guard_never_appends params df cs :
  is_assignment (space_of Strategy002_buy) params →
  Strategy002Hyperopt.buy_guards params df cs =
    (guard params "rsi-enabled" "rsi-enabled" "rsi" Lt "rsi-value" df cs
       ≫= guard params "slowk-enabled" "slowk-enabled"
             "slowk" Lt "slowk-value" df).
Proof.
  intros Ha. unfold Strategy002Hyperopt.buy_guards.
  destruct (guard params "rsi-enabled" _ _ _ _ df cs) as [c1|e]; simpl;
    [|done].
  destruct (guard params "slowk-enabled" _ _ _ _ df c1) as [c2|e]; simpl;
    [|done].
  apply guard_absent. by apply strategy002_no_CDLHAMMER_key.
Qed.

Lemma cdlhammer_guard_never_appends_witness :
  is_assignment (space_of Strategy002_buy) params_hammer ∧
  Strategy002Hyperopt.buy_guards params_hammer s002_annotated3 [] = Ok [].
Proof.
  split; [apply params_hammer_assignment|].
  rewrite (cdlhammer_guard_never_appends params_hammer s002_annotated3 []
             params_hammer_assignment).
  reflexivity.
Defined.

(** ** Keys an evaluator does not look at *)

Lemma guard_params_agree p1 p2 k_in k_on col op kv df cs :
  p1 !! k_in = p2 !! k_in → p1 !! k_on = p2 !! k_on → p1 !! kv = p2 !! kv →
  guard p1 k_in k_on col op kv df cs = guard p2 k_in k_on col op kv df cs.
Proof.
  intros H1 H2 H3. unfold guard, present_and, contains, param.
  by rewrite H1, H2, H3.
Qed.

Lemma branch_lt_params_agree p1 p2 key choice lhs rhs df cs :
  p1 !! key = p2 !! key →
  branch_lt p1 key choice lhs rhs df cs = branch_lt p2 key choice lhs rhs df cs.
Proof. intros H. unfold branch_lt, param. by rewrite H. Qed.

Lemma contains_params_agree p1 p2 k :
  p1 !! k = p2 !! k → contains p1 k = contains p2 k.
Proof. intros H. unfold contains. by rewrite H. Qed.

Local Ltac params_step Hk p1 p2 :=
  first
    [ rewrite (guard_params_agree p1 p2) by (apply Hk; set_solver)
    | rewrite (branch_lt_params_agree p1 p2) by (apply Hk; set_solver) ];
  match goal with
  | |- context [guard p2 ?a ?b ?c ?o ?k ?d ?cs] =>
      destruct (guard p2 a b c o k d cs); simpl; try reflexivity
  | |- context [branch_lt p2 ?a ?b ?l ?r ?d ?cs] =>
      destruct (branch_lt p2 a b l r d cs); simpl; try reflexivity
  end.

Lemma conditions_of_params_agree ev p1 p2 df :
  agree_on_keys ev p1 p2 →
  conditions_of ev p1 df = conditions_of ev p2 df.
Proof.
  intros H.
  assert (∀ k, k ∈ keys_read ev → p1 !! k = p2 !! k) as Hk
    by (by apply Forall_forall).
  clear H. destruct ev; simpl in *.
  - unfold BBRSIHyperOpt.buy_conditions, BBRSIHyperOpt.buy_guards,
      BBRSIHyperOpt.buy_triggers.
    params_step Hk p1 p2.
    rewrite (contains_params_agree p1 p2) by (apply Hk; set_solver).
    destruct (contains p2 _); [|done]. by repeat params_step Hk p1 p2.
  - unfold BBRSIHyperOpt.sell_conditions, BBRSIHyperOpt.sell_guards,
      BBRSIHyperOpt.sell_triggers.
    params_step Hk p1 p2.
    rewrite (contains_params_agree p1 p2) by (apply Hk; set_solver).
    destruct (contains p2 _); [|done]. by repeat params_step Hk p1 p2.
  - unfold Strategy002Hyperopt.buy_conditions, Strategy002Hyperopt.buy_guards,
      Strategy002Hyperopt.buy_triggers.
    simpl. do 3 params_step Hk p1 p2.
    rewrite (contains_params_agree p1 p2) by (apply Hk; set_solver).
    destruct (contains p2 _); [|done]. by repeat params_step Hk p1 p2.
  - unfold Strategy002Hyperopt.sell_conditions,
      Strategy002Hyperopt.sell_guard_fisher_rsi,
      Strategy002Hyperopt.sell_guard_sar.
    by repeat params_step Hk p1 p2.
Qed.

(** A generated evaluator depends on the assignment only through the
    keys its code names: two assignments that agree on those give the
    same result, raised exception included.  Keys of the other side and
    keys no space declares are ignored; the one exception the lists
    show is that the sell evaluator of [BBRSIHyperOpt] looks at the buy
    side's ['trigger']. *)
Theorem generated_ignores_other_keys ev p1 p2 df :
  agree_on_keys ev p1 p2 →
  generated ev p1 df = generated ev p2 df.
Proof.
  intros H. rewrite !generated_unfold.
  by rewrite (conditions_of_params_agree ev p1 p2 df H).
Qed.

Lemma generated_ignores_other_keys_witness :
  agree_on_keys BBRSI_buy params_rsi_trigger params_rsi_trigger_more ∧
  generated BBRSI_buy params_rsi_trigger bbrsi_annotated3
  = generated BBRSI_buy params_rsi_trigger_more bbrsi_annotated3.
Proof.
  assert (agree_on_keys BBRSI_buy params_rsi_trigger params_rsi_trigger_more)
    as H.
  { unfold agree_on_keys. simpl.
    repeat apply Forall_cons_2; try apply Forall_nil_2; reflexivity. }
  split; [exact H|].
  exact (generated_ignores_other_keys BBRSI_buy params_rsi_trigger
           params_rsi_trigger_more bbrsi_annotated3 H).
Defined.

(** An assignment key outside [keys_read] can be added, changed or
    removed without effect. *)
Lemma generated_insert_unread ev params df k v :
  k ∉ keys_read ev →
  generated ev (<[k := v]> params) df = generated ev params df.
Proof.
  intros Hk. rewrite !generated_unfold.
  rewrite (conditions_of_params_agree ev (<[k := v]> params) params); [done|].
  apply Forall_forall. intros k' Hk'. apply lookup_insert_ne.
  by intros ->.
Qed.

(** ** The generated evaluators read columns the annotator provides *)

Lemma no_column_error_Ok {A} (a : A) : no_column_error (Ok a).
Proof. by intros c. Qed.

Lemma no_column_error_bind {A B} (m : result A) (f : A → result B) :
  no_column_error m → (∀ a, m = Ok a → no_column_error (f a)) →
  no_column_error (m ≫= f).
Proof.
  intros Hm Hf c. destruct m as [a|e]; simpl.
  - by apply Hf.
  - intros [= ->]. by apply (Hm c).
Qed.

Lemma no_column_error_getitem df c :
  is_Some (columns df !! c) → no_column_error (getitem df c).
Proof. intros [s Hs] c'. unfold getitem. by rewrite Hs. Qed.

Lemma no_column_error_param params k : no_column_error (param params k).
Proof. intros c. unfold param. by destruct (params !! k). Qed.

Lemma no_column_error_compare op s v : no_column_error (compare_val op s v).
Proof.
  intros c. destruct op; simpl; [| |done];
    unfold series_lt_val, series_gt_val; by destruct (as_num v).
Qed.

Lemma no_column_error_guard params k_in k_on col op kv df cs :
  is_Some (columns df !! col) →
  no_column_error (guard params k_in k_on col op kv df cs).
Proof.
  intros Hcol. unfold guard.
  apply no_column_error_bind.
  { unfold present_and. destruct (contains params k_in);
      [|apply no_column_error_Ok].
    apply no_column_error_bind; [apply no_column_error_param|].
    intros v _. apply no_column_error_Ok. }
  intros [] _; [|apply no_column_error_Ok].
  apply no_column_error_bind; [by apply no_column_error_getitem|]. intros s _.
  apply no_column_error_bind; [apply no_column_error_param|]. intros v _.
  apply no_column_error_bind; [apply no_column_error_compare|]. intros c _.
  apply no_column_error_Ok.
Qed.

Lemma no_column_error_branch params key choice lhs rhs df cs :
  is_Some (columns df !! lhs) → is_Some (columns df !! rhs) →
  no_column_error (branch_lt params key choice lhs rhs df cs).
Proof.
  intros Hl Hr. unfold branch_lt.
  apply no_column_error_bind; [apply no_column_error_param|]. intros v _.
  destruct (bool_decide _); [|apply no_column_error_Ok].
  apply no_column_error_bind; [by apply no_column_error_getitem|]. intros a _.
  apply no_column_error_bind; [by apply no_column_error_getitem|]. intros b _.
  apply no_column_error_Ok.
Qed.

Lemma no_column_error_conditions ev params df :
  has_columns ev df → no_column_error (conditions_of ev params df).
Proof.
  intros H.
  assert (∀ c, c ∈ columns_read ev → is_Some (columns df !! c)) as Hc
    by (by apply Forall_forall).
  clear H. destruct ev; simpl in *.
  - unfold BBRSIHyperOpt.buy_conditions, BBRSIHyperOpt.buy_guards,
      BBRSIHyperOpt.buy_triggers.
    apply no_column_error_bind.
    { apply no_column_error_guard, Hc. set_solver. }
    intros cs _. destruct (contains params "trigger");
      [|apply no_column_error_Ok].
    repeat (apply no_column_error_bind;
            [apply no_column_error_branch; apply Hc; set_solver|intros ? _]).
    apply no_column_error_branch; apply Hc; set_solver.
  - unfold BBRSIHyperOpt.sell_conditions, BBRSIHyperOpt.sell_guards,
      BBRSIHyperOpt.sell_triggers.
    apply no_column_error_bind.
    { apply no_column_error_guard, Hc. set_solver. }
    intros cs _. destruct (contains params "sell-trigger");
      [|apply no_column_error_Ok].
    repeat (apply no_column_error_bind;
            [apply no_column_error_branch; apply Hc; set_solver|intros ? _]).
    apply no_column_error_branch; apply Hc; set_solver.
  - unfold Strategy002Hyperopt.buy_conditions, Strategy002Hyperopt.buy_guards,
      Strategy002Hyperopt.buy_triggers.
    apply no_column_error_bind.
    { repeat (apply no_column_error_bind;
              [apply no_column_error_guard, Hc; set_solver|intros ? _]).
      apply no_column_error_guard, Hc. set_solver. }
    intros cs _. destruct (contains params "trigger");
      [|apply no_column_error_Ok].
    repeat (apply no_column_error_bind;
            [apply no_column_error_branch; apply Hc; set_solver|intros ? _]).
    apply no_column_error_branch; apply Hc; set_solver.
  - unfold Strategy002Hyperopt.sell_conditions,
      Strategy002Hyperopt.sell_guard_fisher_rsi,
      Strategy002Hyperopt.sell_guard_sar.
    apply no_column_error_bind.
    { apply no_column_error_guard, Hc. set_solver. }
    intros cs _. apply no_column_error_guard, Hc. set_solver.
Qed.

(** Every column a generated evaluator can subscript is in the table
    its strategy's annotator returns, provided the input has ['close']. *)
Lemma annotate_has_columns ev L df df' :
  annotate (strategy_of ev) L df = Ok df' →
  is_Some (columns df !! "close") →
  has_columns ev df'.
Proof.
  intros H Hclose.
  destruct (annotate_adds _ L df df' H) as (_ & Hframe & Hnew).
  assert (is_Some (columns df' !! "close")) as Hclose'.
  { rewrite Hframe; [done|].
    destruct ev; simpl;
      unfold BBRSIHyperOpt.indicator_columns,
             Strategy002Hyperopt.indicator_columns; set_solver. }
  assert (∀ c, c ∈ indicator_columns_of (strategy_of ev) →
               is_Some (columns df' !! c)) as Hind.
  { intros c Hc. destruct (Hnew c) as (col & -> & _); [|done].
    by apply elem_of_list_to_set. }
  apply Forall_forall. intros c Hc.
  destruct ev; simpl in Hc, Hind;
    unfold BBRSIHyperOpt.indicator_columns,
           Strategy002Hyperopt.indicator_columns in Hind;
    repeat (apply elem_of_cons in Hc as [->|Hc]);
    try (by apply elem_of_nil in Hc);
    first [exact Hclose' | apply Hind; set_solver].
Qed.

(** On the table [populate_indicators] returns for a price table with a
    ['close'] column, the generated buy and sell evaluators of the same
    class never raise a [KeyError] of a column lookup, whatever the
    assignment. *)
Theorem generated_reads_annotated_columns ev L df df' params :
  annotate (strategy_of ev) L df = Ok df' →
  is_Some (columns df !! "close") →
  no_column_error (generated ev params df').
Proof.
  intros H Hclose. rewrite generated_unfold.
  apply no_column_error_bind.
  - apply no_column_error_conditions. by apply (annotate_has_columns ev L df).
  - intros cs _. apply no_column_error_Ok.
Qed.

Lemma generated_reads_annotated_columns_witness :
  annotate (strategy_of Strategy002_buy) sample_lib prices3
  = Ok s002_annotated3 ∧
  is_Some (columns prices3 !! "close") ∧
  no_column_error (generated Strategy002_buy params_rsi_trigger
                     s002_annotated3).
Proof.
  assert (is_Some (columns prices3 !! "close")) as Hc by (by eexists).
  split; [exact s002_annotated3_eq|]. split; [exact Hc|].
  exact (generated_reads_annotated_columns Strategy002_buy sample_lib prices3
           s002_annotated3 params_rsi_trigger s002_annotated3_eq Hc).
Defined.

(** ** Full assignments *)

Lemma guard_returns params k col op kv df cs :
  is_Some (columns df !! col) →
  (∃ v, params !! kv = Some v ∧ is_Some (as_num v)) →
  ∃ cs', guard params k k col op kv df cs = Ok cs'.
Proof.
  intros [s Hs] (v & Hv & [x Hx]). rewrite guard_same_key.
  destruct (enabled params k); [|by eexists].
  unfold getitem, param. rewrite Hs, Hv. simpl.
  destruct op; simpl; unfold series_lt_val, series_gt_val;
    rewrite ?Hx; simpl; by eexists.
Qed.

Lemma branch_lt_returns params key choice lhs rhs df cs :
  is_Some (params !! key) →
  is_Some (columns df !! lhs) → is_Some (columns df !! rhs) →
  ∃ cs', branch_lt params key choice lhs rhs df cs = Ok cs'.
Proof.
  intros [v Hv] [a Ha] [b Hb]. unfold branch_lt, param, getitem.
  rewrite Hv, Ha, Hb. simpl. destruct (bool_decide _); by eexists.
Qed.

(** A value of an [Integer] or [Real] dimension is a number. *)
Lemma in_domain_numeric d v :
  (∀ cs n, d ≠ Categorical cs n) → in_domain d v = true → is_Some (as_num v).
Proof.
  intros Hd. destruct d as [lo hi n|lo hi n|cs n]; [| |by destruct (Hd cs n)];
    destruct v as [| | |[]|]; simpl; try discriminate; by eexists.
Qed.

Lemma in_space_numeric space k v :
  (∀ d, d ∈ space → dim_name d = k → ∀ cs n, d ≠ Categorical cs n) →
  in_space space k v = true → is_Some (as_num v).
Proof.
  intros Hd. unfold in_space. rewrite existsb_exists.
  intros (d & Hin & [Hn Hv]%andb_true_iff).
  apply bool_decide_eq_true in Hn.
  apply (in_domain_numeric d); [|done].
  apply Hd; [|done]. by apply list_elem_of_In.
Qed.

Local Ltac numeric_dimension :=
  let d := fresh "d" in
  let Hd := fresh "Hd" in
  let Hn := fresh "Hn" in
  intros d Hd Hn;
  simpl in Hd;
  unfold BBRSIHyperOpt.indicator_space, BBRSIHyperOpt.sell_indicator_space,
         Strategy002Hyperopt.indicator_space,
         Strategy002Hyperopt.sell_indicator_space in Hd;
  simpl in Hd;
  repeat (apply elem_of_cons in Hd as [->|Hd]);
  try (by apply elem_of_nil in Hd);
  first [discriminate Hn | by intros ? ?].

(** Under an assignment that holds every dimension of the strategy's
    two spaces with a value of its domain, on a table with the columns
    the evaluator subscripts, every generated evaluator returns a table:
    no key is missing and every compared value is a number. *)
Theorem full_assignment_returns ev params df :
  full_assignment (space_of ev) params →
  has_columns ev df →
  ∃ df', generated ev params df = Ok df'.
Proof.
  intros [Ha Hfull] Hcols.
  assert (∀ c, c ∈ columns_read ev → is_Some (columns df !! c)) as Hc
    by (by apply Forall_forall).
  assert (∀ d, d ∈ space_of ev → is_Some (params !! dim_name d)) as Hp
    by (by apply Forall_forall).
  assert (∀ k, (∃ d, d ∈ space_of ev ∧ dim_name d = k ∧
                     ∀ cs n, d ≠ Categorical cs n) →
               (∀ d, d ∈ space_of ev → dim_name d = k →
                     ∀ cs n, d ≠ Categorical cs n) →
               ∃ v, params !! k = Some v ∧ is_Some (as_num v)) as Hnum.
  { intros k (d & Hd & <- & _) Hall. destruct (Hp d Hd) as [v Hv].
    exists v. split; [done|]. apply Ha in Hv.
    by apply (in_space_numeric (space_of ev) (dim_name d)). }
  clear Hcols Hfull. rewrite generated_unfold.
  enough (∃ cs, conditions_of ev params df = Ok cs) as [cs ->]
    by (by eexists).
  destruct ev; simpl in *.
  - unfold BBRSIHyperOpt.buy_conditions, BBRSIHyperOpt.buy_guards,
      BBRSIHyperOpt.buy_triggers.
    destruct (guard_returns params "rsi-enabled" "rsi" Lt "rsi-value" df [])
      as [c1 ->]; [apply Hc; set_solver| |].
    { apply Hnum; [|numeric_dimension].
      exists (Integer 5 50 "rsi-value"). split; [set_solver|done]. }
    simpl. destruct (contains params "trigger") eqn:Et; [|by eexists].
    apply contains_true in Et.
    repeat match goal with
    | |- ∃ cs, (branch_lt ?p ?k ?ch ?l ?r ?d ?c ≫= _) = Ok cs =>
        let c' := fresh "c" in
        destruct (branch_lt_returns p k ch l r d c) as [c' ->];
        [done|apply Hc; set_solver|apply Hc; set_solver|simpl]
    end.
    apply branch_lt_returns; [done|apply Hc; set_solver..].
  - unfold BBRSIHyperOpt.sell_conditions, BBRSIHyperOpt.sell_guards,
      BBRSIHyperOpt.sell_triggers.
    destruct (guard_returns params "sell-rsi-enabled" "rsi" Gt
                "sell-rsi-value" df []) as [c1 ->]; [apply Hc; set_solver| |].
    { apply Hnum; [|numeric_dimension].
      exists (Integer 30 100 "sell-rsi-value"). split; [set_solver|done]. }
    simpl. destruct (contains params "sell-trigger"); [|by eexists].
    assert (is_Some (params !! "trigger")) as Et.
    { apply (Hp (Categorical [PStr "bb_lower1"; PStr "bb_lower2";
                              PStr "bb_lower3"; PStr "bb_lower4"] "trigger")).
      set_solver. }
    repeat match goal with
    | |- ∃ cs, (branch_lt ?p ?k ?ch ?l ?r ?d ?c ≫= _) = Ok cs =>
        let c' := fresh "c" in
        destruct (branch_lt_returns p k ch l r d c) as [c' ->];
        [done|apply Hc; set_solver|apply Hc; set_solver|simpl]
    end.
    apply branch_lt_returns; [done|apply Hc; set_solver..].
  - unfold Strategy002Hyperopt.buy_conditions, Strategy002Hyperopt.buy_guards,
      Strategy002Hyperopt.buy_triggers.
    destruct (guard_returns params "rsi-enabled" "rsi" Lt "rsi-value" df [])
      as [c1 ->]; [apply Hc; set_solver| |].
    { apply Hnum; [|numeric_dimension].
      exists (Integer 20 40 "rsi-value"). split; [set_solver|done]. }
    simpl.
    destruct (guard_returns params "slowk-enabled" "slowk" Lt "slowk-value"
                df c1) as [c2 ->]; [apply Hc; set_solver| |].
    { apply Hnum; [|numeric_dimension].
      exists (Integer 10 30 "slowk-value"). split; [set_solver|done]. }
    simpl. rewrite guard_absent
      by (by apply (strategy002_no_CDLHAMMER_key params)).
    simpl. destruct (contains params "trigger") eqn:Et; [|by eexists].
    apply contains_true in Et.
    repeat match goal with
    | |- ∃ cs, (branch_lt ?p ?k ?ch ?l ?r ?d ?c ≫= _) = Ok cs =>
        let c' := fresh "c" in
        destruct (branch_lt_returns p k ch l r d c) as [c' ->];
        [done|apply Hc; set_solver|apply Hc; set_solver|simpl]
    end.
    apply branch_lt_returns; [done|apply Hc; set_solver..].
  - unfold Strategy002Hyperopt.sell_conditions,
      Strategy002Hyperopt.sell_guard_fisher_rsi,
      Strategy002Hyperopt.sell_guard_sar.
    destruct (guard_returns params "sell-fisher-rsi-enabled" "rsi" Gt
                "sell-fisher-rsi-value" df []) as [c1 ->];
      [apply Hc; set_solver| |].
    { apply Hnum; [|numeric_dimension].
      exists (Real (Q2Qc (-1)) (Q2Qc 1) "sell-fisher-rsi-value").
      split; [set_solver|done]. }
    simpl.
    apply guard_returns; [apply Hc; set_solver|].
    apply Hnum; [|numeric_dimension].
    exists (Real (Q2Qc (-1)) (Q2Qc 1) "sell-sar-value").
    split; [set_solver|done].
Qed.

Lemma params_buy_and_sell_full :
  full_assignment (space_of BBRSI_sell) params_buy_and_sell.
Proof.
  split; [apply params_buy_and_sell_assignment|].
  simpl. unfold BBRSIHyperOpt.indicator_space,
    BBRSIHyperOpt.sell_indicator_space. simpl.
  repeat apply Forall_cons_2; try apply Forall_nil_2; by eexists.
Defined.

Lemma bbrsi_annotated3_has_columns ev :
  strategy_of ev = BBRSI → has_columns ev bbrsi_annotated3.
Proof.
  intros Hev. apply (annotate_has_columns ev sample_lib prices3).
  - rewrite Hev. exact bbrsi_annotated3_eq.
  - by eexists.
Defined.

Lemma full_assignment_returns_witness :
  full_assignment (space_of BBRSI_sell) params_buy_and_sell ∧
  has_columns BBRSI_sell bbrsi_annotated3 ∧
  ∃ df', generated BBRSI_sell params_buy_and_sell bbrsi_annotated3 = Ok df'.
Proof.
  split; [apply params_buy_and_sell_full|].
  split; [by apply bbrsi_annotated3_has_columns|].
  exact (full_assignment_returns BBRSI_sell params_buy_and_sell
           bbrsi_annotated3 params_buy_and_sell_full
           (bbrsi_annotated3_has_columns BBRSI_sell eq_refl)).
Defined.

(** ** When the annotators return *)

Local Ltac library_call L df :=
  match goal with
  | E : ta_RSI L ?d = Ok ?t |- ∃ r, ta_RSI L df = Ok r =>
      exists t; first [exact E
                      |by rewrite (ta_RSI_prices L df d) by same_prices_tac]
  | E : ta_STOCH L ?d = Ok ?t |- ∃ r, ta_STOCH L df = Ok r =>
      exists t; first [exact E
                      |by rewrite (ta_STOCH_prices L df d) by same_prices_tac]
  | E : ta_SAR L ?d = Ok ?t |- ∃ r, ta_SAR L df = Ok r =>
      exists t; first [exact E
                      |by rewrite (ta_SAR_prices L df d) by same_prices_tac]
  | E : ta_CDLHAMMER L ?d = Ok ?t |- ∃ r, ta_CDLHAMMER L df = Ok r =>
      exists t; first [exact E
                      |by rewrite (ta_CDLHAMMER_prices L df d)
                         by same_prices_tac]
  | E : typical_price L ?d = Ok ?t |- ∃ r, typical_price L df = Ok r =>
      exists t; first [exact E
                      |by rewrite (typical_price_prices L df d)
                         by same_prices_tac]
  end.

(** [populate_indicators] of either class returns a table exactly when
    each library function it calls returns on the table it was given;
    the columns it has written in the meantime make no call fail and no
    failing call succeed. *)
Theorem annotate_returns_iff s L df :
  (∃ df', annotate s L df = Ok df') ↔ library_returns s L df.
Proof.
  split; [|apply annotate_returns].
  intros [df' H]. destruct s; simpl in *.
  - unfold BBRSIHyperOpt.populate_indicators in H. split_binds H.
    split; library_call L df.
  - unfold Strategy002Hyperopt.populate_indicators in H. split_binds H.
    repeat split; library_call L df.
Qed.

(** The exception of the first failing library call is the exception
    of the annotator: a missing price column surfaces at once. *)
Lemma annotate_first_call_raises L df e :
  (ta_RSI L df = Raise e →
   BBRSIHyperOpt.populate_indicators L df = Raise e) ∧
  (ta_STOCH L df = Raise e →
   Strategy002Hyperopt.populate_indicators L df = Raise e).
Proof.
  split; intros H.
  - unfold BBRSIHyperOpt.populate_indicators. by rewrite H.
  - unfold Strategy002Hyperopt.populate_indicators. by rewrite H.
Qed.

(** ** The static reference evaluators, row by row *)

Lemma flt_ltb_nan_r x : flt_ltb x FNaN = false.
Proof. by destruct x. Qed.

Lemma series_lt_lookup a b i :
  default false (series_lt a b !! i)
  = flt_ltb (default FNaN (a !! i)) (default FNaN (b !! i)).
Proof.
  unfold series_lt. rewrite lookup_zip_with.
  destruct (a !! i) as [x|]; simpl; [|done].
  destruct (b !! i) as [y|]; simpl; [done|]. by rewrite flt_ltb_nan_r.
Qed.

Lemma series_gt_lookup a b i :
  default false (series_gt a b !! i)
  = flt_gtb (default FNaN (a !! i)) (default FNaN (b !! i)).
Proof.
  unfold series_gt. rewrite lookup_zip_with.
  destruct (a !! i) as [x|]; simpl.
  - destruct (b !! i) as [y|]; simpl; [done|]. by destruct x.
  - unfold flt_gtb. by rewrite flt_ltb_nan_r.
Qed.

Lemma map_cmp_lookup (f : flt → bool) s i :
  f FNaN = false →
  default false (map f s !! i) = f (default FNaN (s !! i)).
Proof. intros Hf. rewrite list_lookup_fmap. by destruct (s !! i). Qed.

Lemma cell_lookup df c s i :
  columns df !! c = Some s → cell df c i = default FNaN (s !! i).
Proof. intros H. unfold cell. by rewrite H. Qed.

Lemma loc_set_one_spec df mask c (row : nat → bool) :
  (∀ i, default false (mask !! i) = row i) →
  ∃ sig,
    nrows (loc_set_one df mask c) = nrows df ∧
    (∀ c', c' ≠ c → columns (loc_set_one df mask c) !! c' = columns df !! c') ∧
    columns (loc_set_one df mask c) !! c = Some sig ∧
    ∀ i, sig !! i
         = (λ old, if row i then flt_one else old) <$> prior_column df c !! i.
Proof.
  intros Hrow. eexists. split; [done|]. split; [|split].
  - intros c' Hc'. simpl. by rewrite lookup_insert_ne.
  - simpl. apply lookup_insert_eq.
  - intros i. rewrite mark_rows_lookup. by rewrite Hrow.
Qed.

(** On a table that has the columns it subscripts, a reference evaluator
    returns the table with 1 written into its signal column on the rows
    that satisfy its fixed conjunction; the other rows keep their signal
    (unset where the column did not exist) and the other columns are
    untouched. *)
Theorem reference_rule_marks r df :
  Forall (λ c, is_Some (columns df !! c)) (reference_columns r) →
  ∃ d sig,
    reference_rule r df = Ok d ∧
    nrows d = nrows df ∧
    (∀ c, c ≠ reference_signal r → columns d !! c = columns df !! c) ∧
    columns d !! reference_signal r = Some sig ∧
    ∀ i, sig !! i
         = (λ old, if reference_row r df i then flt_one else old)
             <$> prior_column df (reference_signal r) !! i.
Proof.
  intros H.
  assert (∀ c, c ∈ reference_columns r → is_Some (columns df !! c)) as Hc
    by (by apply Forall_forall).
  clear H. destruct r; simpl in *.
  - destruct (Hc "rsi") as [rsi Hrsi]; [set_solver|].
    destruct (Hc "close") as [close Hclose]; [set_solver|].
    destruct (Hc "bb_lowerband") as [bb Hbb]; [set_solver|].
    unfold BBRSIHyperOpt.populate_buy_trend, getitem.
    rewrite Hrsi, Hclose, Hbb. simpl.
    edestruct (loc_set_one_spec df) as (sig & H1 & H2 & H3 & H4);
      [|exists (loc_set_one df
                  (series_and (map (λ c, flt_gtb c (flt_of_Z 30)) rsi)
                     (series_lt close bb)) "buy"), sig; split; [done|];
         split; [exact H1|]; split; [exact H2|]; split; [exact H3|exact H4]].
    intros i. rewrite series_and_lookup, series_lt_lookup.
    rewrite map_cmp_lookup by done.
    by rewrite (cell_lookup df "rsi" rsi), (cell_lookup df "close" close),
      (cell_lookup df "bb_lowerband" bb).
  - destruct (Hc "close") as [close Hclose]; [set_solver|].
    destruct (Hc "bb_middleband") as [bb Hbb]; [set_solver|].
    unfold BBRSIHyperOpt.populate_sell_trend, getitem.
    rewrite Hclose, Hbb. simpl.
    edestruct (loc_set_one_spec df) as (sig & H1 & H2 & H3 & H4);
      [|exists (loc_set_one df (series_gt close bb) "sell"), sig;
         split; [done|];
         split; [exact H1|]; split; [exact H2|]; split; [exact H3|exact H4]].
    intros i. rewrite series_gt_lookup.
    by rewrite (cell_lookup df "close" close),
      (cell_lookup df "bb_middleband" bb).
  - destruct (Hc "rsi") as [rsi Hrsi]; [set_solver|].
    destruct (Hc "slowk") as [slowk Hslowk]; [set_solver|].
    destruct (Hc "bb_lowerband") as [bb Hbb]; [set_solver|].
    destruct (Hc "close") as [close Hclose]; [set_solver|].
    destruct (Hc "CDLHAMMER") as [hammer Hhammer]; [set_solver|].
    unfold Strategy002Hyperopt.populate_buy_trend, getitem.
    rewrite Hrsi, Hslowk, Hbb, Hclose, Hhammer. simpl.
    edestruct (loc_set_one_spec df) as (sig & H1 & H2 & H3 & H4);
      [|exists (loc_set_one df
                  (series_and
                     (series_and
                        (series_and (map (λ c, flt_ltb c (flt_of_Z 30)) rsi)
                           (map (λ c, flt_ltb c (flt_of_Z 20)) slowk))
                        (series_gt bb close))
                     (series_eq_val hammer (PInt 100))) "buy"), sig;
         split; [done|];
         split; [exact H1|]; split; [exact H2|]; split; [exact H3|exact H4]].
    intros i. rewrite !series_and_lookup, series_gt_lookup.
    unfold series_eq_val. simpl.
    rewrite !map_cmp_lookup by done.
    by rewrite (cell_lookup df "rsi" rsi), (cell_lookup df "slowk" slowk),
      (cell_lookup df "bb_lowerband" bb), (cell_lookup df "close" close),
      (cell_lookup df "CDLHAMMER" hammer).
  - destruct (Hc "sar") as [sar Hsar]; [set_solver|].
    destruct (Hc "close") as [close Hclose]; [set_solver|].
    destruct (Hc "fisher_rsi") as [fisher Hfisher]; [set_solver|].
    unfold Strategy002Hyperopt.populate_sell_trend, getitem.
    rewrite Hsar, Hclose, Hfisher. simpl.
    edestruct (loc_set_one_spec df) as (sig & H1 & H2 & H3 & H4);
      [|exists (loc_set_one df
                  (series_and (series_gt sar close)
                     (map (λ c, flt_gtb c float_0_3) fisher)) "sell"), sig;
         split; [done|];
         split; [exact H1|]; split; [exact H2|]; split; [exact H3|exact H4]].
    intros i. rewrite series_and_lookup, series_gt_lookup.
    rewrite map_cmp_lookup by done.
    by rewrite (cell_lookup df "sar" sar), (cell_lookup df "close" close),
      (cell_lookup df "fisher_rsi" fisher).
Qed.
Lemma reference_rule_marks_witness :
  Forall (λ c, is_Some (columns banded3 !! c))
    (reference_columns BBRSI_ref_buy) ∧
  ∃ d sig,
    reference_rule BBRSI_ref_buy banded3 = Ok d ∧
    nrows d = nrows banded3 ∧
    (∀ c, c ≠ "buy" → columns d !! c = columns banded3 !! c) ∧
    columns d !! "buy" = Some sig ∧
    ∀ i, sig !! i
         = (λ old, if reference_row BBRSI_ref_buy banded3 i
                   then flt_one else old)
             <$> prior_column banded3 "buy" !! i.
Proof.
  assert (Forall (λ c, is_Some (columns banded3 !! c))
            (reference_columns BBRSI_ref_buy)) as H.
  { simpl. repeat apply Forall_cons_2; try apply Forall_nil_2; by eexists. }
  split; [exact H|].
  exact (reference_rule_marks BBRSI_ref_buy banded3 H).
Defined.

(** The run of the witness: rows two and three have [rsi > 30] and
    [close < bb_lowerband]. *)
Example reference_rule_example :
  (BBRSIHyperOpt.populate_buy_trend banded3 ≫= λ d, getitem d "buy")
  = Ok [FNaN; flt_one; flt_one].
Proof. by vm_compute. Qed.

(** ** The static reference evaluators after annotation *)

(** On every table that has ['close'] and arrives without the columns
    ['bb_lowerband'] and ['bb_middleband'], annotation is followed by a
    [KeyError] in three of the four reference evaluators, for the band
    column without a width suffix; the reference sell evaluator of
    [Strategy002Hyperopt] finds its columns and returns. *)
Theorem reference_rules_after_annotation L df :
  is_Some (columns df !! "close") →
  columns df !! "bb_lowerband" = None →
  columns df !! "bb_middleband" = None →
  (∀ df', BBRSIHyperOpt.populate_indicators L df = Ok df' →
          BBRSIHyperOpt.populate_buy_trend df'
          = Raise (ColumnKeyError "bb_lowerband") ∧
          BBRSIHyperOpt.populate_sell_trend df'
          = Raise (ColumnKeyError "bb_middleband")) ∧
  (∀ df', Strategy002Hyperopt.populate_indicators L df = Ok df' →
          Strategy002Hyperopt.populate_buy_trend df'
          = Raise (ColumnKeyError "bb_lowerband") ∧
          ∃ d, Strategy002Hyperopt.populate_sell_trend df' = Ok d).
Proof.
  intros [close Hclose] Hlow Hmid. split; intros df' H.
  - split; [by apply (bbrsi_reference_buy_raises L df df' close)|].
    unfold BBRSIHyperOpt.populate_sell_trend, getitem.
    rewrite (annotate_untouched BBRSI L df df' "close" H), Hclose
      by (simpl; unfold BBRSIHyperOpt.indicator_columns; set_solver).
    simpl.
    by rewrite (annotate_no_plain_band BBRSI L df df' "bb_middleband"), Hmid
      by auto.
  - destruct (annotate_adds Strategy002 L df df' H) as (_ & Hframe & Hnew).
    assert (∀ c, c ∈ Strategy002Hyperopt.indicator_columns →
                 is_Some (columns df' !! c)) as Hind.
    { intros c Hc. destruct (Hnew c) as (col & -> & _); [|done].
      by apply elem_of_list_to_set. }
    assert (columns df' !! "close" = Some close) as Hclose'.
    { rewrite (annotate_untouched Strategy002 L df df' "close" H); [done|].
      simpl. unfold Strategy002Hyperopt.indicator_columns. set_solver. }
    unfold Strategy002Hyperopt.indicator_columns in Hind.
    destruct (Hind "rsi") as [rsi Hrsi]; [set_solver|].
    destruct (Hind "slowk") as [slowk Hslowk]; [set_solver|].
    destruct (Hind "sar") as [sar Hsar]; [set_solver|].
    destruct (Hind "fisher_rsi") as [fisher Hfisher]; [set_solver|].
    split.
    + unfold Strategy002Hyperopt.populate_buy_trend, getitem.
      rewrite Hrsi, Hslowk. simpl.
      by rewrite (annotate_no_plain_band Strategy002 L df df' "bb_lowerband"),
        Hlow by auto.
    + unfold Strategy002Hyperopt.populate_sell_trend, getitem.
      rewrite Hsar, Hclose', Hfisher. simpl. by eexists.
Qed.

Lemma reference_rules_after_annotation_witness :
  is_Some (columns prices3 !! "close") ∧
  Strategy002Hyperopt.populate_buy_trend s002_annotated3
  = Raise (ColumnKeyError "bb_lowerband") ∧
  ∃ d, Strategy002Hyperopt.populate_sell_trend s002_annotated3 = Ok d.
Proof.
  assert (is_Some (columns prices3 !! "close")) as Hc by (by eexists).
  split; [exact Hc|].
  exact (proj2 (reference_rules_after_annotation sample_lib prices3
                  Hc eq_refl eq_refl)
           s002_annotated3 s002_annotated3_eq).
Defined.

(** ** Annotating twice *)

Local Ltac calls_on_input L df :=
  repeat match goal with
  | E : ta_RSI L ?d = _ |- _ =>
      lazymatch d with df => fail | _ => idtac end;
      rewrite <- (ta_RSI_prices L df d) in E by same_prices_tac
  | E : ta_STOCH L ?d = _ |- _ =>
      lazymatch d with df => fail | _ => idtac end;
      rewrite <- (ta_STOCH_prices L df d) in E by same_prices_tac
  | E : ta_SAR L ?d = _ |- _ =>
      lazymatch d with df => fail | _ => idtac end;
      rewrite <- (ta_SAR_prices L df d) in E by same_prices_tac
  | E : ta_CDLHAMMER L ?d = _ |- _ =>
      lazymatch d with df => fail | _ => idtac end;
      rewrite <- (ta_CDLHAMMER_prices L df d) in E by same_prices_tac
  | E : typical_price L ?d = _ |- _ =>
      lazymatch d with df => fail | _ => idtac end;
      rewrite <- (typical_price_prices L df d) in E by same_prices_tac
  end.

Lemma setitem_lookup_eq d c s :
  columns (setitem d c s) !! c = Some (align (nrows d) s).
Proof. rewrite setitem_lookup. by rewrite decide_True. Qed.

Lemma setitem_lookup_ne d c s c' :
  c ≠ c' → columns (setitem d c s) !! c' = columns d !! c'.
Proof. intros H. rewrite setitem_lookup. by rewrite decide_False. Qed.

(** Assigning a column the value it has changes nothing. *)
Lemma setitem_id d c s :
  columns d !! c = Some (align (nrows d) s) → setitem d c s = d.
Proof.
  intros H. destruct d as [n m]. unfold setitem. simpl in *.
  f_equal. by apply insert_id.
Qed.

Local Ltac column_is_set :=
  repeat (rewrite setitem_lookup_ne by done);
  rewrite setitem_lookup_eq; reflexivity.

Local Ltac merge_calls :=
  repeat match goal with
  | Ea : ?t = Ok ?a, Eb : ?t = Ok ?b |- _ =>
      assert (b = a) as -> by congruence; clear Eb
  end.

Local Ltac replay_calls L df :=
  repeat first
    [ match goal with
      | |- (getitem (setitem _ ?c _) ?c ≫= _) = _ =>
          unfold getitem at 1; rewrite setitem_lookup_eq; simpl
      end
    | progress back_to_input L df
    | match goal with
      | E : ?t = Ok _ |- (?t ≫= _) = _ => rewrite E; simpl
      end ].

(** Annotating an annotated table changes nothing: a second call of
    [populate_indicators] on the table the first call returned returns
    that table again. *)
Theorem annotate_idempotent s L df df' :
  annotate s L df = Ok df' →
  annotate s L df' = Ok df'.
Proof.
  intros H. destruct s; simpl in *.
  - unfold BBRSIHyperOpt.populate_indicators in H. split_binds H.
    injection H as <-. calls_on_input L df. merge_calls.
    unfold BBRSIHyperOpt.populate_indicators. replay_calls L df.
    f_equal. do 14 (rewrite setitem_id by column_is_set). reflexivity.
  - unfold Strategy002Hyperopt.populate_indicators in H. split_binds H.
    injection H as <-. calls_on_input L df.
    match goal with
    | E : getitem _ _ = Ok _ |- _ =>
        unfold getitem in E; rewrite setitem_lookup_eq in E;
        injection E as <-
    end.
    merge_calls.
    unfold Strategy002Hyperopt.populate_indicators. replay_calls L df.
    f_equal. do 9 (rewrite setitem_id by column_is_set). reflexivity.
Qed.

Lemma annotate_idempotent_witness :
  annotate Strategy002 sample_lib prices3 = Ok s002_annotated3 ∧
  annotate Strategy002 sample_lib s002_annotated3 = Ok s002_annotated3.
Proof.
  split; [exact s002_annotated3_eq|].
  exact (annotate_idempotent Strategy002 sample_lib prices3 s002_annotated3
           s002_annotated3_eq).
Defined.
